(** * CareerPath Gap Analyzer: skill extraction and gap analysis

    A shallow embedding of the skill extractor of [utils/resumeParser.ts]
    ([extractSkillsFromText]), of the pasted-text entry point of
    [utils/linkedinParser.ts] ([parseLinkedInText]) and of the gap analyzer,
    together with the properties the specification states about them.

    The development goes on to the code around the extractor: the file
    readers and [parseResume] of [utils/resumeParser.ts], [parseLinkedInURL],
    the handlers of the upload and LinkedIn components, the steps of the
    personal form, and the colour functions of [contexts/ThemeContext.tsx].
    The libraries (pdf.js, mammoth), the files, the network and the list of
    schools are parameters of these definitions.

    Strings are Rocq [string]s, read as sequences of code units below 256;
    the case mappings and the character classes are those of ECMAScript on
    that range. *)

From Stdlib Require Import Ascii String ZArith Lia DecimalString HexadecimalString.
From stdpp Require Import base list strings gmap sorting.

(** ** Completions of the modelled JavaScript operations *)

Inductive exn : Type :=
| SyntaxError (message : string)
| Error (message : string).

(** A call returns a value or throws.  [Unsupported] is the answer of the
    model for regular expressions whose source lies outside the pattern
    grammar fragment embedded below; it says nothing about the program. *)
Inductive completion (A : Type) : Type :=
| Returns (a : A)
| Throws (e : exn)
| Unsupported.
Arguments Returns {A} a.
Arguments Throws {A} e.
Arguments Unsupported {A}.

#[global] Instance completion_ret : MRet completion := fun A a => Returns a.

#[global] Instance completion_bind : MBind completion := fun A B k c =>
  match c with
  | Returns a => k a
  | Throws e => Throws e
  | Unsupported => Unsupported
  end.

(** ** String primitives *)

Module JsString.

Definition code (c : ascii) : nat := nat_of_ascii c.

Definition isUpper (c : ascii) : bool := (65 <=? code c) && (code c <=? 90).
Definition isLower (c : ascii) : bool := (97 <=? code c) && (code c <=? 122).
Definition isDigit (c : ascii) : bool := (48 <=? code c) && (code c <=? 57).

(** The letters of the upper half of the range that have a lower-case or
    an upper-case form in the range: 192 to 222 without the multiplication
    sign 215, and 224 to 254 without the division sign 247. *)
Definition isUpperLatin1 (c : ascii) : bool :=
  (192 <=? code c) && (code c <=? 222) && negb (code c =? 215).
Definition isLowerLatin1 (c : ascii) : bool :=
  (224 <=? code c) && (code c <=? 254) && negb (code c =? 247).

Definition lowerChar (c : ascii) : ascii :=
  if isUpper c || isUpperLatin1 c then ascii_of_nat (code c + 32) else c.

(** The upper-case form as the [i] flag compares it.  The code units 181
    and 255 have upper-case forms above the range, which no other code
    unit of the range shares, and 223 has one of two code units, which
    the comparison does not use: the three stay as they are. *)
Definition upperChar (c : ascii) : ascii :=
  if isLower c || isLowerLatin1 c then ascii_of_nat (code c - 32) else c.

(** [String.prototype.toLowerCase] *)
Fixpoint toLowerCase (s : string) : string :=
  match s with
  | EmptyString => EmptyString
  | String c s' => String (lowerChar c) (toLowerCase s')
  end.

(** [WhiteSpace] and [LineTerminator] code units: the set both [trim] and
    the class escape [\s] use.  The code unit 160 is the no-break space. *)
Definition isWhiteSpace (c : ascii) : bool :=
  let n := code c in
  (n =? 9) || (n =? 10) || (n =? 11) || (n =? 12) || (n =? 13) || (n =? 32)
  || (n =? 160).

Fixpoint trimStart (s : string) : string :=
  match s with
  | EmptyString => EmptyString
  | String c s' => if isWhiteSpace c then trimStart s' else s
  end.

(** [trimEnd] keeps a character when it is not white space or when
    something remains after it. *)
Fixpoint trimEnd (s : string) : string :=
  match s with
  | EmptyString => EmptyString
  | String c s' =>
      match trimEnd s' with
      | EmptyString => if isWhiteSpace c then EmptyString else String c EmptyString
      | t => String c t
      end
  end.

(** [String.prototype.trim] *)
Definition trim (s : string) : string := trimEnd (trimStart s).

(** [s.replace(/\s+/g, ' ')]: every maximal run of white space becomes
    one space.  [inRun] tells that the previous character was white
    space, whose run has already been replaced. *)
Fixpoint collapseFrom (inRun : bool) (s : string) : string :=
  match s with
  | EmptyString => EmptyString
  | String c s' =>
      if isWhiteSpace c
      then (if inRun then collapseFrom true s' else String " "%char (collapseFrom true s'))
      else String c (collapseFrom false s')
  end.

Definition collapseWhiteSpace (s : string) : string := collapseFrom false s.

Definition all (p : ascii -> bool) (s : string) : bool :=
  forallb p (list_ascii_of_string s).
Definition any (p : ascii -> bool) (s : string) : bool :=
  existsb p (list_ascii_of_string s).

End JsString.

(** ** Regular expressions

    The fragment of the ECMAScript pattern grammar (without the [u] flag,
    with the web-compatibility extensions) that the extractor can produce:
    pattern characters, identity escapes of syntax characters and the two
    word-boundary assertions.  The parser also recognises the syntax errors
    that an unescaped source can run into around this fragment. *)

Module RegExp.
Import JsString.

Inductive node : Type :=
| Char (c : ascii)
| WordBoundary
| NotWordBoundary.

(** [SyntaxCharacter :: one of ^ $ \ . * + ? ( ) [ ] { } |]; the code
    unit 092 is the backslash. *)
Definition isSyntaxCharacter (c : ascii) : bool :=
  match c with
  | "^" | "$" | "092" | "." | "*" | "+" | "?"
  | "(" | ")" | "[" | "]" | "{" | "}" | "|" => true
  | _ => false
  end%char.

Definition consNode (n : node) (p : completion (list node)) : completion (list node) :=
  ns ← p; Returns (n :: ns).

(** What stands before the current term: nothing a quantifier may
    follow, an atom, or an atom with its quantifier. *)
Inductive previous : Type := NoAtom | Atom | Quantified.

(** The source is well formed so far but has left the fragment: only a
    later syntax error is still reported. *)
Definition outside (p : completion (list node)) : completion (list node) :=
  _ ← p; Unsupported.

Definition nothingToRepeat : completion (list node) :=
  Throws (SyntaxError "Nothing to repeat").

Fixpoint parseTerms (prev : previous) (src : string) : completion (list node) :=
  match src with
  | EmptyString => Returns []
  | String "092"%char EmptyString => Throws (SyntaxError "\ at end of pattern")
  | String "092"%char (String c rest) =>
      match c with
      | "b"%char => consNode WordBoundary (parseTerms NoAtom rest)
      | "B"%char => consNode NotWordBoundary (parseTerms NoAtom rest)
      | _ =>
          if isSyntaxCharacter c || Ascii.eqb c "/"%char
          then consNode (Char c) (parseTerms Atom rest)
          else Unsupported
      end
  | String c rest =>
      match c with
      | "*"%char | "+"%char =>
          match prev with
          | Atom => outside (parseTerms Quantified rest)
          | _ => nothingToRepeat
          end
      | "?"%char =>
          match prev with
          | Atom => outside (parseTerms Quantified rest)
          | Quantified => outside (parseTerms NoAtom rest)
          | NoAtom => nothingToRepeat
          end
      | ")"%char => Throws (SyntaxError "Unmatched ')'")
      | "("%char | "["%char | "{"%char | "|"%char | "."%char | "^"%char | "$"%char =>
          Unsupported
      | _ => consNode (Char c) (parseTerms Atom rest)
      end
  end.

Record flags : Type := { global : bool; ignoreCase : bool }.

(** A RegExp object: the compiled pattern, its flags and the mutable
    [lastIndex] property. *)
Record t : Type := {
  nodes : list node;
  reFlags : flags;
  lastIndex : nat
}.

(** [new RegExp(source, flags)] *)
Definition new (source : string) (f : flags) : completion t :=
  ns ← parseTerms NoAtom source;
  Returns {| nodes := ns; reFlags := f; lastIndex := 0 |}.

(** [\w] is [A-Za-z0-9_]; without the [u] flag [ignoreCase] adds nothing. *)
Definition isWordChar (c : ascii) : bool :=
  isUpper c || isLower c || isDigit c || Ascii.eqb c "_"%char.

Definition isWordCharAt (o : option ascii) : bool :=
  match o with
  | Some c => isWordChar c
  | None => false
  end.

Definition head (s : string) : option ascii :=
  match s with
  | EmptyString => None
  | String c _ => Some c
  end.

(** [Canonicalize] for a pattern without the [u] flag. *)
Definition canonicalize (ic : bool) (c : ascii) : ascii :=
  if ic then upperChar c else c.

(** [matchHere ic ns prev rest] matches the nodes at the position whose
    left neighbour is [prev] and where [rest] begins; it gives the number
    of code units consumed. *)
Fixpoint matchHere (ic : bool) (ns : list node) (prev : option ascii) (rest : string)
  : option nat :=
  match ns with
  | [] => Some 0
  | WordBoundary :: ns' =>
      if xorb (isWordCharAt prev) (isWordCharAt (head rest))
      then matchHere ic ns' prev rest else None
  | NotWordBoundary :: ns' =>
      if xorb (isWordCharAt prev) (isWordCharAt (head rest))
      then None else matchHere ic ns' prev rest
  | Char c :: ns' =>
      match rest with
      | EmptyString => None
      | String d rest' =>
          if Ascii.eqb (canonicalize ic c) (canonicalize ic d)
          then option_map S (matchHere ic ns' (Some d) rest')
          else None
      end
  end.

(** The leftmost match at or after the current position: the pair of the
    offset of its start and of its end, relative to the position. *)
Fixpoint search (ic : bool) (ns : list node) (prev : option ascii) (rest : string)
  : option (nat * nat) :=
  match matchHere ic ns prev rest with
  | Some len => Some (0, len)
  | None =>
      match rest with
      | EmptyString => None
      | String d rest' =>
          option_map (fun '(s, e) => (S s, S e)) (search ic ns (Some d) rest')
      end
  end.

(** The text from index [i] on, with the code unit before it. *)
Fixpoint dropFrom (i : nat) (prev : option ascii) (s : string) : option ascii * string :=
  match i, s with
  | S i', String c s' => dropFrom i' (Some c) s'
  | _, _ => (prev, s)
  end.

(** [RegExpBuiltinExec]: a global expression starts at [lastIndex] and
    leaves the end of the match there, or 0 after a failure. *)
Definition exec (r : t) (text : string) : option (nat * nat) * t :=
  let start := if global (reFlags r) then lastIndex r else 0 in
  let setLast (i : nat) :=
    if global (reFlags r)
    then {| nodes := nodes r; reFlags := reFlags r; lastIndex := i |} else r in
  if String.length text <? start then (None, setLast 0)
  else
    let '(prev, rest) := dropFrom start None text in
    match search (ignoreCase (reFlags r)) (nodes r) prev rest with
    | Some (s, e) => (Some (start + s, start + e), setLast (start + e))
    | None => (None, setLast 0)
    end.

(** [RegExp.prototype.test] *)
Definition test (r : t) (text : string) : bool * t :=
  let '(m, r') := exec r text in (bool_decide (is_Some m), r').

End RegExp.

(** ** Arrays *)

Module JsArray.
Section Sort.
Context {A : Type} (compareFn : A -> A -> Z).

(** [x] stood before every element of [l]: it stays in front of the
    elements it does not compare greater than. *)
Fixpoint insertSorted (x : A) (l : list A) : list A :=
  match l with
  | [] => [x]
  | y :: l' =>
      if (compareFn x y <=? 0)%Z then x :: l else y :: insertSorted x l'
  end.

(** [Array.prototype.sort(compareFn)], which is stable. *)
Definition sort (l : list A) : list A := foldr insertSorted [] l.
End Sort.
End JsArray.

(** ** The shared types of [types.ts] *)

Inductive SkillCategory : Type := language | framework | tool | soft.

#[global] Instance SkillCategory_eq_dec : EqDecision SkillCategory.
Proof. solve_decision. Defined.

Module Skill.
Record t : Type := {
  id : string;
  label : string;
  aliases : list string;
  category : SkillCategory
}.

#[global] Instance eq_dec : EqDecision t.
Proof. solve_decision. Defined.
End Skill.

(** [ImportanceLevel = 1 | 2 | 3] *)
Inductive ImportanceLevel : Type := importance1 | importance2 | importance3.

Definition importanceValue (i : ImportanceLevel) : Z :=
  match i with
  | importance1 => 1
  | importance2 => 2
  | importance3 => 3
  end.

Module RoleSkillRequirement.
Record t : Type := {
  skillId : string;
  importance : ImportanceLevel
}.
End RoleSkillRequirement.

Module RoleDefinition.
Record t : Type := {
  id : string;
  name : string;
  description : string;
  responsibilities : list string;
  requiredSkills : list RoleSkillRequirement.t
}.
End RoleDefinition.

Module GapAnalysisResult.
Record t : Type := {
  roleId : string;
  normalizedUserSkills : list string;
  matchedSkills : list string;
  missingSkills : list string;
  readinessPercent : Z;
  weightedReadinessPercent : Z;
  missingSkillsByCategory : SkillCategory -> list string
}.
End GapAnalysisResult.

(** ** [utils/resumeParser.ts] *)

Module ResumeParser.
Import JsString.

Record SkillMatch : Type := { pattern : string; skillId : string }.

#[global] Instance SkillMatch_eq_dec : EqDecision SkillMatch.
Proof. solve_decision. Defined.

(** The candidates of one skill: its label, its id when it differs from
    the label once lower-cased, and its aliases. *)
Definition skillMatchesOf (skill : Skill.t) : list SkillMatch :=
  {| pattern := toLowerCase (Skill.label skill); skillId := Skill.id skill |}
  :: (if bool_decide (toLowerCase (Skill.id skill) ≠ toLowerCase (Skill.label skill))
      then [{| pattern := toLowerCase (Skill.id skill); skillId := Skill.id skill |}]
      else [])
  ++ map (fun alias => {| pattern := toLowerCase alias; skillId := Skill.id skill |})
       (Skill.aliases skill).

Definition buildSkillMatches (skills : list Skill.t) : list SkillMatch :=
  flat_map skillMatchesOf skills.

(** [(a, b) => b.pattern.length - a.pattern.length] *)
Definition byLengthDescending (a b : SkillMatch) : Z :=
  (Z.of_nat (String.length (pattern b)) - Z.of_nat (String.length (pattern a)))%Z.

(** The character class of [/[.*+?^${}()|[\]\\]/g]. *)
Definition isMetacharacter (c : ascii) : bool :=
  match c with
  | "." | "*" | "+" | "?" | "^" | "$" | "{" | "}"
  | "(" | ")" | "|" | "[" | "]" | "092" => true
  | _ => false
  end%char.

(** [pattern.replace(/[.*+?^${}()|[\]\\]/g, '\\$&')] *)
Fixpoint escapeMetacharacters (s : string) : string :=
  match s with
  | EmptyString => EmptyString
  | String c s' =>
      if isMetacharacter c
      then String "092"%char (String c (escapeMetacharacters s'))
      else String c (escapeMetacharacters s')
  end.

Definition gi : RegExp.flags := {| RegExp.global := true; RegExp.ignoreCase := true |}.

(** The loop over the sorted candidates, with the two local variables
    [extractedSkills] and [seen] it updates. *)
Fixpoint scan (text : string) (skillMatches : list SkillMatch)
    (extractedSkills : list string) (seen : gset string) : completion (list string) :=
  match skillMatches with
  | [] => Returns extractedSkills
  | m :: rest =>
      regex ← RegExp.new ("\b" +:+ escapeMetacharacters (pattern m) +:+ "\b") gi;
      if fst (RegExp.test regex text) && negb (bool_decide (skillId m ∈ seen))
      then scan text rest (extractedSkills ++ [skillId m]) ({[skillId m]} ∪ seen)
      else scan text rest extractedSkills seen
  end.

Definition extractSkillsFromText (text : string) (skills : list Skill.t)
  : completion (list string) :=
  scan text (JsArray.sort byLengthDescending (buildSkillMatches skills)) [] ∅.

End ResumeParser.

(** ** [utils/linkedinParser.ts] *)

Module LinkedinParser.
Import JsString.

Definition parseLinkedInText (text : string) (skills : list Skill.t)
  : completion (list string) :=
  if bool_decide (text = "") || (String.length (trim text) =? 0)
  then Throws (Error "Please paste some text from your LinkedIn profile.")
  else
    let cleanedText := trim (collapseWhiteSpace text) in
    ResumeParser.extractSkillsFromText cleanedText skills.

End LinkedinParser.

(** ** [utils/gapAnalysis.ts] *)

Module GapAnalysis.

(** Modelled from the spec: [round] of the readiness formulas, missing
    with the rest of [utils/gapAnalysis.ts]; the quotient [n / d] of a
    non-negative [n] by a positive [d] is rounded to the nearest integer,
    a half going up, as [Math.round] does. *)
Definition roundRatio (n d : Z) : Z := (2 * n + d) / (2 * d).

Definition hasSkill (ids : list string) (r : RoleSkillRequirement.t) : bool :=
  bool_decide (RoleSkillRequirement.skillId r ∈ ids).

Definition totalImportance (rs : list RoleSkillRequirement.t) : Z :=
  foldr (fun r acc => importanceValue (RoleSkillRequirement.importance r) + acc)%Z 0%Z rs.

Definition categoryOf (skills : list Skill.t) (skillId : string) : option SkillCategory :=
  Skill.category <$> find (fun s => bool_decide (Skill.id s = skillId)) skills.

(** Modelled from the spec: [analyzeGaps] (the spec's [analyze]), whose
    file [utils/gapAnalysis.ts] is missing; section 4.2, steps 1 to 6.
    The user's ids unknown to the vocabulary are dropped; a requirement
    is matched when its skill is among the remaining ones; both scores
    are 100 for a role without requirements, the guarded case. *)
Definition analyzeGaps (userSkills : list string) (role : RoleDefinition.t)
    (skills : list Skill.t) : GapAnalysisResult.t :=
  let normalized :=
    filter (fun i => i ∈ Skill.id <$> skills) userSkills in
  let requirements := RoleDefinition.requiredSkills role in
  let matched := filter (fun r => hasSkill normalized r = true) requirements in
  let missing := filter (fun r => hasSkill normalized r = false) requirements in
  let missingIds := RoleSkillRequirement.skillId <$> missing in
  {| GapAnalysisResult.roleId := RoleDefinition.id role;
     GapAnalysisResult.normalizedUserSkills := normalized;
     GapAnalysisResult.matchedSkills := RoleSkillRequirement.skillId <$> matched;
     GapAnalysisResult.missingSkills := missingIds;
     GapAnalysisResult.readinessPercent :=
       match requirements with
       | [] => 100
       | _ :: _ =>
           roundRatio (100 * Z.of_nat (length matched)) (Z.of_nat (length requirements))
       end;
     GapAnalysisResult.weightedReadinessPercent :=
       match requirements with
       | [] => 100
       | _ :: _ =>
           roundRatio (100 * totalImportance matched) (totalImportance requirements)
       end;
     GapAnalysisResult.missingSkillsByCategory := fun c =>
       filter (fun i => categoryOf skills i = Some c) missingIds |}.

End GapAnalysis.

(** ** Notions the properties are stated with *)

(** The code units of a string. *)
Abbreviation chars := list_ascii_of_string.

(** The node list the extractor compiles a candidate pattern to. *)
Definition wholeWordNodes (pattern : string) : list RegExp.node :=
  RegExp.WordBoundary :: map RegExp.Char (chars pattern) ++ [RegExp.WordBoundary].

(** The candidate pattern is found in the text by the extractor's test. *)
Definition matches (text pattern : string) : bool :=
  bool_decide (is_Some (RegExp.search true (wholeWordNodes pattern) None text)).

Definition hasWordChar (text : string) : bool := JsString.any RegExp.isWordChar text.

Definition whitespaceOnly (text : string) : bool := JsString.all JsString.isWhiteSpace text.

(** The last code unit of a string. *)
Fixpoint lastChar (s : string) : option ascii :=
  match s with
  | EmptyString => None
  | String c EmptyString => Some c
  | String _ s' => lastChar s'
  end.

(** Every code unit, for the facts that are settled by enumeration. *)
Definition allAscii : list ascii := ascii_of_nat <$> seq 0 256.




(** The ids of a list, each kept where it stands first. *)
Fixpoint firstOccurrences (ids : list string) : list string :=
  match ids with
  | [] => []
  | i :: rest => i :: filter (fun j => j ≠ i) (firstOccurrences rest)
  end.

(** The skill ids of the candidates the text matches, in candidate order. *)
Definition matchingIds (text : string) (ms : list ResumeParser.SkillMatch) : list string :=
  ResumeParser.skillId <$>
    filter (fun m => matches text (ResumeParser.pattern m) = true) ms.

Definition patternLength (m : ResumeParser.SkillMatch) : nat :=
  String.length (ResumeParser.pattern m).


(** The vocabulary and the text of the scenario of the specification. *)
Definition scenarioVocabulary : list Skill.t :=
  [ {| Skill.id := "js"; Skill.label := "JavaScript";
       Skill.aliases := ["ecmascript"]; Skill.category := language |};
    {| Skill.id := "java"; Skill.label := "Java";
       Skill.aliases := []; Skill.category := language |} ].

Definition scenarioText : string := "Proficient in Java and JavaScript development.".


(** The role of the readiness scenario: skill A of importance 3, skill B
    of importance 1; the user has B only. *)
Definition scenarioRole : RoleDefinition.t :=
  {| RoleDefinition.id := "role"; RoleDefinition.name := "Role";
     RoleDefinition.description := ""; RoleDefinition.responsibilities := [];
     RoleDefinition.requiredSkills :=
       [ {| RoleSkillRequirement.skillId := "a";
            RoleSkillRequirement.importance := importance3 |};
         {| RoleSkillRequirement.skillId := "b";
            RoleSkillRequirement.importance := importance1 |} ] |}.

Definition scenarioSkills : list Skill.t :=
  [ {| Skill.id := "a"; Skill.label := "A"; Skill.aliases := [];
       Skill.category := language |};
    {| Skill.id := "b"; Skill.label := "B"; Skill.aliases := [];
       Skill.category := tool |} ].

Definition emptyRole : RoleDefinition.t :=
  {| RoleDefinition.id := "none"; RoleDefinition.name := "No requirements";
     RoleDefinition.description := ""; RoleDefinition.responsibilities := [];
     RoleDefinition.requiredSkills := [] |}.


(** Following the specification's words: the extractor with the guard the
    specification asks for, which passes over an empty candidate pattern. *)
Definition extractSkippingEmptyPatterns (text : string) (skills : list Skill.t)
  : completion (list string) :=
  ResumeParser.scan text
    (filter (λ m, ResumeParser.pattern m ≠ "")
       (JsArray.sort ResumeParser.byLengthDescending
          (ResumeParser.buildSkillMatches skills)))
    [] ∅.

(** [sorted] is [l] in descending key order, the elements of equal key in
    the order [l] has them. *)
Definition StableSortOf {A} (key : A -> nat) (l sorted : list A) : Prop :=
  StronglySorted (fun x y => key y ≤ key x) sorted
  ∧ ∀ k, filter (fun x => key x = k) sorted = filter (fun x => key x = k) l.

(** ** Promises and caught values

    The functions below await promises of the platform and of libraries,
    and catch what they throw.  A [catch] clause receives an [Error] object
    or any other value; the [try] bodies are computations that end with a
    value or with something thrown. *)

Module Effects.

Inductive caught : Type :=
| CaughtError (e : exn)
| CaughtValue.

(** The promise of an external operation, settled. *)
Inductive promise (A : Type) : Type :=
| Resolved (a : A)
| RejectedWith (c : caught).
Arguments Resolved {A} a.
Arguments RejectedWith {A} c.

(** The outcome of a [try] body.  [NotCovered] carries [Unsupported]
    along. *)
Inductive attempt (A : Type) : Type :=
| Done (a : A)
| Raised (c : caught)
| NotCovered.
Arguments Done {A} a.
Arguments Raised {A} c.
Arguments NotCovered {A}.

#[global] Instance attempt_ret : MRet attempt := fun A a => Done a.

#[global] Instance attempt_bind : MBind attempt := fun A B k c =>
  match c with
  | Done a => k a
  | Raised t => Raised t
  | NotCovered => NotCovered
  end.

(** [await p] *)
Definition await {A} (p : promise A) : attempt A :=
  match p with
  | Resolved a => Done a
  | RejectedWith c => Raised c
  end.

(** The call of a function of the repository, which throws [Error]s only. *)
Definition call {A} (c : completion A) : attempt A :=
  match c with
  | Returns a => Done a
  | Throws e => Raised (CaughtError e)
  | Unsupported => NotCovered
  end.

(** [throw new Error(message)] *)
Definition throwError {A} (message : string) : attempt A :=
  Raised (CaughtError (Error message)).

(** [error.message] *)
Definition message (e : exn) : string :=
  match e with
  | SyntaxError m => m
  | Error m => m
  end.

(** [try { body } catch (error) { throw handler(error) }], for the
    handlers that always throw. *)
Definition tryCatch {A} (body : attempt A) (handler : caught -> exn) : completion A :=
  match body with
  | Done a => Returns a
  | Raised c => Throws (handler c)
  | NotCovered => Unsupported
  end.

End Effects.

(** ** Searching in strings *)

Module JsSearch.

(** [s.startsWith(search)] *)
Fixpoint startsWith (s search : string) : bool :=
  match search, s with
  | EmptyString, _ => true
  | String p search', String c s' => Ascii.eqb c p && startsWith s' search'
  | String _ _, EmptyString => false
  end.

(** [s.includes(search)] *)
Fixpoint includes (s search : string) : bool :=
  startsWith s search
  || match s with
     | EmptyString => false
     | String _ s' => includes s' search
     end.

(** The string from index [n] on. *)
Fixpoint dropChars (n : nat) (s : string) : string :=
  match n, s with
  | S n', String _ s' => dropChars n' s'
  | _, _ => s
  end.

(** [s.endsWith(search)]: the comparison starts at the length of [s]
    less the length of [search], and fails when that is negative. *)
Definition endsWith (s search : string) : bool :=
  (String.length search <=? String.length s)
  && startsWith (dropChars (String.length s - String.length search) s) search.

(** [strings.join(separator)] *)
Definition join (separator : string) (strings : list string) : string :=
  String.concat separator strings.

(** [s.padStart(n, '0')] *)
Definition padStartZero (n : nat) (s : string) : string :=
  string_of_list_ascii (repeat "0"%char (n - String.length s)) +:+ s.

(** [n.toString(16)] and [String(n)] for a non-negative integer. *)
Definition toString16 (n : N) : string :=
  HexadecimalString.NilZero.string_of_uint (N.to_hex_uint n).

(** [!text || text.trim().length < n] *)
Definition isBlankBelow (n : nat) (text : string) : bool :=
  bool_decide (text = "") || (String.length (JsString.trim text) <? n).

End JsSearch.

(** ** [utils/resumeParser.ts]: files *)

Module ResumeFiles.
Import JsString JsSearch Effects.

Inductive FileType : Type := pdf | docx | txt | doc | unknown.

#[global] Instance FileType_eq_dec : EqDecision FileType.
Proof. solve_decision. Defined.

(** A document opened by pdf.js: the number of its pages and, for a page
    number, the [str] fields of the items of its text content, or the
    rejection of [getPage] or [getTextContent]. *)
Record PdfDocument : Type := {
  numPages : nat;
  pageItems : nat -> promise (list (option string))
}.

(** A [File]: name, MIME type, size, and what [text()] and
    [arrayBuffer()] settle to. *)
Record File : Type := {
  name : string;
  type : string;
  size : N;
  text : promise string;
  arrayBuffer : promise (list ascii)
}.

(** The two libraries: their dynamic import, [getDocument(...).promise]
    of pdf.js and the [value] of mammoth's [extractRawText]. *)
Record Libraries : Type := {
  importPdfjs : promise unit;
  getDocument : list ascii -> promise (option PdfDocument);
  importMammoth : promise unit;
  extractRawText : list ascii -> promise string
}.

(** The text of one page: the items with something other than white
    space, joined by spaces. *)
Definition pageText (items : list (option string)) : string :=
  join " "
    (filter (fun str => 0 < String.length (trim str)) (default "" <$> items)).

(** The loop over the pages 1 to [numPages]; a page that fails is left
    out. *)
Definition documentText (pdfDocument : PdfDocument) : string :=
  foldl
    (fun fullText i =>
       match pageItems pdfDocument i with
       | Resolved items => fullText +:+ pageText items +:+ String "010"%char ""
       | RejectedWith _ => fullText
       end)
    "" (seq 1 (numPages pdfDocument)).

Definition pdfCatch (error : caught) : exn :=
  match error with
  | CaughtError e =>
      if includes (message e) "Invalid PDF" || includes (message e) "corrupted"
      then e
      else if includes (message e) "password" || includes (message e) "encrypted"
      then Error "PDF file is password-protected. Please remove the password and try again."
      else Error ("Failed to parse PDF: " +:+ message e)
  | CaughtValue =>
      Error "Failed to parse PDF file. Please ensure it is a valid PDF document."
  end.

(** [extractTextFromPDF].  The worker source that is set after the import
    configures the library only, and its own failure is caught there. *)
Definition extractTextFromPDF (libraries : Libraries) (file : File) : completion string :=
  tryCatch
    (_ ← await (importPdfjs libraries);
     bytes ← await (arrayBuffer file);
     let pdfHeader := string_of_list_ascii (take 4 bytes) in
     if negb (startsWith pdfHeader "%PDF")
     then throwError "Invalid PDF file. The file may be corrupted or not a valid PDF."
     else
       opened ← await (getDocument libraries bytes);
       match opened with
       | None => throwError "PDF file appears to be empty or corrupted."
       | Some pdfDocument =>
           if numPages pdfDocument =? 0
           then throwError "PDF file appears to be empty or corrupted."
           else
             let fullText := documentText pdfDocument in
             if isBlankBelow 10 fullText
             then throwError
                    "Could not extract text from PDF. The PDF may be image-based or password-protected."
             else Done (trim fullText)
       end)
    pdfCatch.

(** The bytes in hexadecimal, two digits each. *)
Definition hexOfBytes (bytes : list ascii) : string :=
  join "" ((fun b => padStartZero 2 (toString16 (N_of_ascii b))) <$> bytes).

Definition docxCatch (error : caught) : exn :=
  match error with
  | CaughtError e =>
      if includes (message e) "Invalid DOCX" || includes (message e) "corrupted"
      then e
      else if includes (message e) "not a valid" || includes (message e) "Cannot read"
      then Error "Invalid DOCX file format. Please ensure the file is a valid Microsoft Word document (.docx)."
      else Error ("Failed to parse DOCX: " +:+ message e)
  | CaughtValue =>
      Error "Failed to parse DOCX file. Please ensure it is a valid Word document."
  end.

(** [extractTextFromDOCX]; the messages of the conversion are logged only. *)
Definition extractTextFromDOCX (libraries : Libraries) (file : File) : completion string :=
  tryCatch
    (_ ← await (importMammoth libraries);
     bytes ← await (arrayBuffer file);
     let zipHeader := hexOfBytes (take 4 bytes) in
     if bool_decide (zipHeader ≠ "504b0304") && bool_decide (zipHeader ≠ "504b0506")
        && bool_decide (zipHeader ≠ "504b0708")
     then throwError
            "Invalid DOCX file. The file may be corrupted or not a valid DOCX document."
     else
       value ← await (extractRawText libraries bytes);
       if isBlankBelow 10 value
       then throwError
              "Could not extract text from DOCX file. The file may be empty or corrupted."
       else Done (trim value))
    docxCatch.

Definition txtCatch (error : caught) : exn :=
  match error with
  | CaughtError e =>
      if includes (message e) "empty" || includes (message e) "insufficient"
      then e
      else Error ("Failed to read text file: " +:+ message e)
  | CaughtValue =>
      Error "Failed to read text file. Please ensure the file is a valid text document."
  end.

(** [extractTextFromTXT] *)
Definition extractTextFromTXT (file : File) : completion string :=
  tryCatch
    (content ← await (text file);
     if isBlankBelow 10 content
     then throwError "Text file appears to be empty or contains insufficient content."
     else Done (trim content))
    txtCatch.

(** [detectFileType] *)
Definition detectFileType (file : File) : FileType :=
  let fileName := toLowerCase (name file) in
  let mimeType := toLowerCase (type file) in
  if endsWith fileName ".pdf" then pdf
  else if endsWith fileName ".docx" then docx
  else if endsWith fileName ".doc" then doc
  else if endsWith fileName ".txt" || endsWith fileName ".text" then txt
  else if bool_decide (mimeType = "application/pdf") then pdf
  else if bool_decide
            (mimeType
             = "application/vnd.openxmlformats-officedocument.wordprocessingml.document")
  then docx
  else if bool_decide (mimeType = "application/msword") then doc
  else if bool_decide (mimeType = "text/plain") || startsWith mimeType "text/" then txt
  else unknown.

(** [file.type || 'unknown type'] *)
Definition typeOrUnknown (file : File) : string :=
  if bool_decide (type file = "") then "unknown type" else type file.

Definition resumeCatch (error : caught) : exn :=
  match error with
  | CaughtError e =>
      if 20 <? String.length (message e) then e
      else Error ("Failed to parse resume: " +:+ message e)
  | CaughtValue => Error "Failed to parse resume: Unknown error"
  end.

(** [parseResume] *)
Definition parseResume (libraries : Libraries) (file : File) (skills : list Skill.t)
  : completion (list string) :=
  let fileType := detectFileType file in
  tryCatch
    (if bool_decide (fileType = doc)
     then throwError
            "Old Word format (.doc) is not supported. Please save your resume as a .docx file or export it as PDF."
     else if bool_decide (fileType = unknown)
     then throwError
            ("Unsupported file type. Please upload a PDF, DOCX, or TXT file. "
             +:+ "Detected file: " +:+ name file +:+ " (" +:+ typeOrUnknown file +:+ ")")
     else
       extracted ←
         match fileType with
         | pdf => call (extractTextFromPDF libraries file)
         | docx => call (extractTextFromDOCX libraries file)
         | txt => call (extractTextFromTXT file)
         | _ => throwError "Unsupported file type."
         end;
       if isBlankBelow 20 extracted
       then throwError
              ("Could not extract meaningful text from the file. "
               +:+ "The file may be corrupted, password-protected, or image-based.")
       else
         extractedSkills ← call (ResumeParser.extractSkillsFromText extracted skills);
         if length extractedSkills =? 0 then Done [] else Done extractedSkills)
    resumeCatch.

End ResumeFiles.

(** ** [utils/linkedinParser.ts]: profile URLs *)

Module LinkedinUrl.
Import JsString JsSearch Effects.

(** The platform behind [parseLinkedInURL]: whether [new URL(s)] accepts
    a string, what [fetchLinkedInProfileWithProxy] gives for a URL (it
    throws [Error]s only), and the text [extractTextFromHTML] reads from a
    page. *)
Record Web : Type := {
  acceptsURL : string -> bool;
  fetchLinkedInProfileWithProxy : string -> completion string;
  extractTextFromHTML : string -> string
}.

(** The URL with a protocol. *)
Definition finalUrlOf (profileUrl : string) : string :=
  let finalUrl := trim profileUrl in
  if negb (startsWith finalUrl "http://") && negb (startsWith finalUrl "https://")
  then "https://" +:+ finalUrl
  else finalUrl.

Definition urlCatch (error : caught) : exn :=
  match error with
  | CaughtError e => e
  | CaughtValue =>
      Error "Unable to fetch LinkedIn profile. Please use the text paste method instead."
  end.

(** [parseLinkedInURL] *)
Definition parseLinkedInURL (web : Web) (profileUrl : string) (skills : list Skill.t)
  : completion (list string) :=
  if negb (includes profileUrl "linkedin.com/in/")
  then Throws
         (Error
            "Please enter a valid LinkedIn profile URL (e.g., https://www.linkedin.com/in/username)")
  else
    let finalUrl := finalUrlOf profileUrl in
    if negb (acceptsURL web finalUrl)
    then Throws (Error "Invalid URL format. Please enter a valid LinkedIn profile URL.")
    else
      tryCatch
        (html ← call (fetchLinkedInProfileWithProxy web finalUrl);
         if bool_decide (html = "") || (String.length (trim html) =? 0)
         then throwError "No content received from LinkedIn profile."
         else
           let text := extractTextFromHTML web html in
           if isBlankBelow 50 text
           then throwError
                  "Unable to extract meaningful content from LinkedIn profile. The profile may be private or require authentication."
           else
             extractedSkills ← call (ResumeParser.extractSkillsFromText text skills);
             if length extractedSkills =? 0
             then throwError
                    "No skills found in the LinkedIn profile. Please make sure your profile is publicly accessible and contains skills information."
             else Done extractedSkills)
        urlCatch.

End LinkedinUrl.


(** ** The import components

    What a handler of [components/ResumeParser.tsx] or
    [components/LinkedInParser.tsx] leaves on the screen when it is done:
    nothing new, an error message, or the success mark after
    [onSkillsExtracted] was called with a skill list and returned. *)

Inductive shown : Type :=
| Untouched
| ShowsError (error : string)
| Imported (skills : list string)
| ShowsNotCovered.

(** What a call of the [onSkillsExtracted] property of a component does:
    it returns, or it throws a value. *)
Inductive callback : Type :=
| CallReturns
| CallThrows (c : Effects.caught).

Definition invoke (outcome : callback) : Effects.attempt unit :=
  match outcome with
  | CallReturns => Effects.Done ()
  | CallThrows c => Effects.Raised c
  end.

(** [try { body } catch (err) { handler(err) }], for the handlers that
    set the error of the component and return. *)
Definition tryShow (body : Effects.attempt shown) (handler : Effects.caught -> shown)
  : shown :=
  match body with
  | Effects.Done s => s
  | Effects.Raised c => handler c
  | Effects.NotCovered => ShowsNotCovered
  end.

(** [err instanceof Error ? err.message : fallback] *)
Definition messageOr (fallback : string) (c : Effects.caught) : string :=
  match c with
  | Effects.CaughtError e => Effects.message e
  | Effects.CaughtValue => fallback
  end.

(** [extractedSkills.filter(skill => !existingSkills.includes(skill))] *)
Definition newSkillsOf (existingSkills extractedSkills : list string) : list string :=
  filter (fun skill => skill ∉ existingSkills) extractedSkills.

Module ResumeParserComponent.
Import JsString JsSearch Effects ResumeFiles.

Definition validExtensions : list string := [".pdf"; ".docx"; ".txt"; ".text"].

Definition validMimeTypes : list string :=
  [ "application/pdf";
    "application/vnd.openxmlformats-officedocument.wordprocessingml.document";
    "text/plain";
    "text/" ].

Definition hasValidExtension (fileName : string) : bool :=
  existsb (fun ext => endsWith fileName ext) validExtensions.

Definition hasValidMimeType (fileType : string) : bool :=
  existsb
    (fun type => bool_decide (fileType = type)
                 || (endsWith type "/" && startsWith fileType type))
    validMimeTypes.

(** [handleFileSelect], with the file of the event, if any. *)
Definition handleFileSelect (libraries : Libraries) (skills : list Skill.t)
    (onSkillsExtracted : list string -> callback) (existingSkills : list string)
    (selected : option File) : shown :=
  match selected with
  | None => Untouched
  | Some file =>
      let fileName := toLowerCase (name file) in
      let fileType := toLowerCase (type file) in
      if endsWith fileName ".doc"
      then ShowsError
             "Old Word format (.doc) is not supported. Please save your resume as .docx or export as PDF."
      else if negb (hasValidExtension fileName) && negb (hasValidMimeType fileType)
      then ShowsError
             ("Unsupported file type. Please upload a PDF, DOCX, or TXT file. "
              +:+ "Detected: " +:+ name file +:+ " (" +:+ typeOrUnknown file +:+ ")")
      else if (10 * 1024 * 1024 <? size file)%N
      then ShowsError "File size must be less than 10MB."
      else
        tryShow
          (extractedSkills ← call (parseResume libraries file skills);
           if length extractedSkills =? 0
           then Done
                  (ShowsError
                     "No skills found in the resume. Please make sure your resume contains technical skills.")
           else
             let newSkills := newSkillsOf existingSkills extractedSkills in
             if 0 <? length newSkills
             then
               _ ← invoke (onSkillsExtracted (existingSkills ++ newSkills));
               Done (Imported (existingSkills ++ newSkills))
             else Done (ShowsError "All skills from your resume are already added."))
          (fun err => ShowsError (messageOr "Failed to parse resume. Please try again." err))
  end.

End ResumeParserComponent.

Module LinkedInParserComponent.
Import JsString JsSearch Effects.

(** [handleSkillsExtracted]: the call of the callback has a [catch]
    clause of its own, inside the one of the whole body. *)
Definition handleSkillsExtracted (onSkillsExtracted : list string -> callback)
    (existingSkills extractedSkills : list string) : shown :=
  tryShow
    (if length extractedSkills =? 0
     then Done
            (ShowsError
               "No skills found in the LinkedIn profile. Please make sure your profile contains technical skills.")
     else
       let newSkills := newSkillsOf existingSkills extractedSkills in
       if 0 <? length newSkills
       then
         Done
           (tryShow
              (_ ← invoke (onSkillsExtracted (existingSkills ++ newSkills));
               Done (Imported (existingSkills ++ newSkills)))
              (fun _ => ShowsError "Failed to update skills. Please try again."))
       else Done (ShowsError "All skills from your LinkedIn profile are already added."))
    (fun _ => ShowsError "An error occurred while processing skills. Please try again.").

(** [handleTextSubmit], on the text of the input box. *)
Definition handleTextSubmit (skills : list Skill.t)
    (onSkillsExtracted : list string -> callback) (existingSkills : list string)
    (textInput : string) : shown :=
  if bool_decide (trim textInput = "")
  then ShowsError "Please paste text from your LinkedIn profile."
  else
    tryShow
      (extractedSkills ← call (LinkedinParser.parseLinkedInText (trim textInput) skills);
       if 0 <? length extractedSkills
       then Done (handleSkillsExtracted onSkillsExtracted existingSkills extractedSkills)
       else Done
              (ShowsError
                 "No skills found in the pasted text. Please make sure you copied text that contains technical skills."))
      (fun err => ShowsError (messageOr "Failed to parse LinkedIn text." err)).

(** The words Paste Text between double quotes. *)
Definition pasteTextQuoted : string :=
  String "034"%char ("Paste Text" +:+ String "034"%char "").

(** [handleURLSubmit], on the text of the URL box. *)
Definition handleURLSubmit (web : LinkedinUrl.Web) (skills : list Skill.t)
    (onSkillsExtracted : list string -> callback) (existingSkills : list string)
    (urlInput : string) : shown :=
  if bool_decide (trim urlInput = "")
  then ShowsError "Please enter a LinkedIn profile URL."
  else
    tryShow
      (extractedSkills ← call (LinkedinUrl.parseLinkedInURL web (trim urlInput) skills);
       if 0 <? length extractedSkills
       then Done (handleSkillsExtracted onSkillsExtracted existingSkills extractedSkills)
       else Done
              (ShowsError
                 ("No skills found in the LinkedIn profile. Please use the "
                  +:+ pasteTextQuoted +:+ " tab and copy text from your profile.")))
      (fun err =>
         ShowsError
           (messageOr "Failed to parse LinkedIn profile." err
            +:+ " LinkedIn profiles are often not publicly accessible. Please use the "
            +:+ pasteTextQuoted +:+ " tab for more reliable results.")).

End LinkedInParserComponent.

(** ** [components/ResumeParser.tsx]: the steps of the personal form *)

Module PersonalInfo.

(** The state the step handlers read and write. *)
Record state : Type := {
  currentStep : Z;
  dreamRoleId : option string
}.

Definition totalSteps : Z := 2.

Definition initial : state := {| currentStep := 1; dreamRoleId := None |}.

(** [canProceed] *)
Definition canProceed (st : state) : bool :=
  if (currentStep st =? 1)%Z then true
  else if (currentStep st =? 2)%Z then bool_decide (dreamRoleId st ≠ None)
  else false.

(** [handleNext] *)
Definition handleNext (st : state) : state :=
  if canProceed st && (currentStep st <? totalSteps)%Z
  then {| currentStep := currentStep st + 1; dreamRoleId := dreamRoleId st |}
  else st.

(** [handleBack] *)
Definition handleBack (st : state) : state :=
  if (1 <? currentStep st)%Z
  then {| currentStep := currentStep st - 1; dreamRoleId := dreamRoleId st |}
  else st.

(** What the user does on the form: the Next and Back buttons, and the
    choice of a role, [setDreamRoleId(role.id)]. *)
Inductive event : Type :=
| Next
| Back
| ChooseRole (id : string).

Definition handle (st : state) (e : event) : state :=
  match e with
  | Next => handleNext st
  | Back => handleBack st
  | ChooseRole id => {| currentStep := currentStep st; dreamRoleId := Some id |}
  end.

(** The state after a sequence of events on the fresh form. *)
Definition after (events : list event) : state := foldl handle initial events.

End PersonalInfo.

(** ** [contexts/ThemeContext.tsx]: colours and schools *)

Module ThemeContext.
Import JsString JsSearch.

Record UniversityColor : Type := {
  name : string;
  primary : string;
  secondary : string
}.

#[global] Instance UniversityColor_eq_dec : EqDecision UniversityColor.
Proof. solve_decision. Defined.

(** [[a-f\d]] under the [i] flag. *)
Definition isHexDigit (c : ascii) : bool :=
  isDigit c
  || ((97 <=? code c) && (code c <=? 102))
  || ((65 <=? code c) && (code c <=? 70)).

Definition hexDigitValue (c : ascii) : N :=
  if isDigit c then N.of_nat (code c - 48)
  else if (97 <=? code c) && (code c <=? 102) then N.of_nat (code c - 87)
  else N.of_nat (code c - 55).

(** [parseInt(group, 16)] on a group of hexadecimal digits. *)
Definition parseInt16 (group : string) : N :=
  foldl (fun n c => (16 * n + hexDigitValue c)%N) 0%N (list_ascii_of_string group).

(** The three groups of [/^#?([a-f\d]{2})([a-f\d]{2})([a-f\d]{2})$/i],
    when the expression matches. *)
Definition execHexColor (hex : string) : option (string * string * string) :=
  let digits :=
    match hex with
    | String "#"%char rest => rest
    | _ => hex
    end in
  match digits with
  | String r1 (String r2 (String g1 (String g2 (String b1 (String b2 EmptyString))))) =>
      if forallb isHexDigit [r1; r2; g1; g2; b1; b2]
      then Some (String r1 (String r2 ""), String g1 (String g2 ""),
                 String b1 (String b2 ""))
      else None
  | _ => None
  end.


(** [darkenColor].  [delta] stands for [Math.round(255 * amount)], the
    one place where the amount, a floating-point number, comes in. *)
Definition darkenColor (hex : string) (delta : Z) : string :=
  match execHexColor hex with
  | None => hex
  | Some (r, g, b) =>
      let darker group := Z.max 0 (Z.of_N (parseInt16 group) - delta) in
      "#" +:+ join ""
        ((fun x => padStartZero 2 (toString16 (Z.to_N x)))
           <$> [darker r; darker g; darker b])
  end.

(** The own properties of the [abbreviations] object. *)
Definition abbreviations : list (string * string) :=
  [ ("MIT", "Massachusetts Institute of Technology (MIT)");
    ("UCLA", "University of California, Los Angeles (UCLA)");
    ("UC Berkeley", "University of California, Berkeley (UC Berkeley)");
    ("USC", "University of Southern California (USC)");
    ("NYU", "New York University (NYU)");
    ("UIUC", "University of Illinois at Urbana-Champaign (UIUC)");
    ("UCSD", "University of California, San Diego (UCSD)");
    ("UCI", "University of California, Irvine (UCI)");
    ("UCSB", "University of California, Santa Barbara (UCSB)");
    ("UCSC", "University of California, Santa Cruz (UCSC)");
    ("UCR", "University of California, Riverside (UCR)");
    ("UCSF", "University of California, San Francisco (UCSF)");
    ("UNC", "University of North Carolina at Chapel Hill (UNC)");
    ("UT Austin", "University of Texas at Austin (UT Austin)");
    ("Penn", "University of Pennsylvania (Penn)");
    ("WashU", "Washington University in St. Louis (WashU)");
    ("UVA", "University of Virginia (UVA)");
    ("RIT", "Rochester Institute of Technology (RIT)");
    ("RPI", "Rensselaer Polytechnic Institute (RPI)");
    ("SMU", "Southern Methodist University (SMU)");
    ("UConn", "University of Connecticut (UConn)");
    ("Caltech", "California Institute of Technology (Caltech)") ].

(** [abbreviations[schoolName]], when it is a string.  (A property the
    object inherits is not a string and is the name of no school.) *)
Definition abbreviationOf (schoolName : string) : option string :=
  snd <$> find (fun entry => bool_decide (fst entry = schoolName)) abbreviations.

(** The partial match of the second search. *)
Definition fuzzyMatch (schoolName : string) (s : UniversityColor) : bool :=
  includes (toLowerCase (name s)) (toLowerCase schoolName)
  || includes (toLowerCase schoolName) (toLowerCase (name s)).

(** [findUniversityColors], over the schools of [universityColors.json]. *)
Definition findUniversityColors (schools : list UniversityColor) (schoolName : string)
  : option UniversityColor :=
  if bool_decide (schoolName = "") then None
  else
    match find (fun s => bool_decide (name s = schoolName)) schools with
    | Some found => Some found
    | None =>
        match find (fuzzyMatch schoolName) schools with
        | Some found => Some found
        | None =>
            match abbreviationOf schoolName with
            | Some fullName => find (fun s => bool_decide (name s = fullName)) schools
            | None => None
            end
        end
    end.

End ThemeContext.


(** ** Further notions *)

(** The string begins with a white-space character. *)
Definition startsWithWhiteSpace (s : string) : bool :=
  match s with
  | EmptyString => false
  | String c _ => JsString.isWhiteSpace c
  end.

(** Every white-space character of the string is a space that no white
    space follows. *)
Fixpoint singleSpaced (s : string) : bool :=
  match s with
  | EmptyString => true
  | String c s' =>
      (if JsString.isWhiteSpace c
       then Ascii.eqb c " "%char && negb (startsWithWhiteSpace s')
       else true)
      && singleSpaced s'
  end.

(** The code units of the string are in the ASCII range. *)
Definition isAscii (s : string) : bool :=
  JsString.all (fun c => JsString.code c <? 128) s.

(** The white-space-collapsed form of a text, stated on the words of the
    text and not on the cleaning expression of the code.  The words are
    the maximal runs of characters other than white space, in their
    order: a character that is not white space begins a word of its own
    when white space or the end of the text follows it, and otherwise
    goes before the word that begins after it. *)
Fixpoint words (s : string) : list string :=
  match s with
  | EmptyString => []
  | String c s' =>
      if JsString.isWhiteSpace c then words s'
      else if startsWithWhiteSpace s' then String c "" :: words s'
      else
        match words s' with
        | [] => [String c ""]
        | w :: ws => String c w :: ws
        end
  end.

(** The words of the text, one space between two of them, no white space
    before the first and none after the last. *)
Definition whitespaceCollapsed (text : string) : string :=
  String.concat " " (words text).

(** ** Scenarios of the resume and profile import *)

(** Libraries that load; pdf.js opens every file as a document of one
    page without text items, mammoth gives the scenario text. *)
Definition scenarioLibraries : ResumeFiles.Libraries :=
  {| ResumeFiles.importPdfjs := Effects.Resolved ();
     ResumeFiles.getDocument := fun _ =>
       Effects.Resolved
         (Some {| ResumeFiles.numPages := 1;
                  ResumeFiles.pageItems := fun _ => Effects.Resolved [] |});
     ResumeFiles.importMammoth := Effects.Resolved ();
     ResumeFiles.extractRawText := fun _ => Effects.Resolved scenarioText |}.

Definition fileOf (name type : string) (content : string) : ResumeFiles.File :=
  {| ResumeFiles.name := name; ResumeFiles.type := type;
     ResumeFiles.size := N.of_nat (String.length content);
     ResumeFiles.text := Effects.Resolved content;
     ResumeFiles.arrayBuffer := Effects.Resolved (list_ascii_of_string content) |}.

Definition textFile : ResumeFiles.File := fileOf "Resume.TXT" "" scenarioText.

Definition oldWordFile : ResumeFiles.File :=
  fileOf "cv.doc" "application/msword" scenarioText.

Definition scannedPdf : ResumeFiles.File :=
  fileOf "scan.pdf" "application/pdf" "%PDF-1.4 (pages are images)".

Definition renamedTextFile : ResumeFiles.File :=
  fileOf "notes.docx" "" scenarioText.

(** A callback that returns, and one that throws. *)
Definition scenarioCallback : list string -> callback := fun _ => CallReturns.

Definition failingCallback : list string -> callback :=
  fun _ => CallThrows (Effects.CaughtError (Error "The skill list is read-only.")).

Definition scenarioPage : string :=
  "Software engineer. Proficient in Java and JavaScript development since 2015.".

(** A web on which every URL is well formed and every profile is the
    scenario page, given as its own text. *)
Definition scenarioWeb : LinkedinUrl.Web :=
  {| LinkedinUrl.acceptsURL := fun _ => true;
     LinkedinUrl.fetchLinkedInProfileWithProxy := fun _ => Returns scenarioPage;
     LinkedinUrl.extractTextFromHTML := fun html => html |}.

(** ** Strings *)

Section StringFacts.
Import JsString.

Lemma append_cons c s t : String c s +:+ t = String c (s +:+ t).
Proof. reflexivity. Qed.

Lemma append_nil_l s : "" +:+ s = s.
Proof. reflexivity. Qed.


Lemma forall_ascii (P : ascii → bool) :
  forallb P allAscii = true → ∀ c, P c = true.
Proof.
  intros H c. rewrite forallb_forall in H. apply H.
  rewrite <- (ascii_nat_embedding c). apply in_map, in_seq.
  pose proof (nat_ascii_bounded c). lia.
Qed.

Ltac enumerate :=
  match goal with
  | |- ∀ c, @?P c = true => apply (forall_ascii P); vm_compute; reflexivity
  end.
Ltac by_enumeration c := revert c; enumerate.

Lemma lowerChar_idemp c : lowerChar (lowerChar c) = lowerChar c.
Proof.
  apply Ascii.eqb_eq. by_enumeration c.
Qed.

Lemma toLowerCase_idemp s : toLowerCase (toLowerCase s) = toLowerCase s.
Proof. induction s as [|c s IH]; simpl; [done|]. by rewrite lowerChar_idemp, IH. Qed.

Lemma isWordChar_lowerChar c : RegExp.isWordChar (lowerChar c) = RegExp.isWordChar c.
Proof.
  apply eqb_prop. by_enumeration c.
Qed.

Lemma isWhiteSpace_not_word c :
  isWhiteSpace c = true → RegExp.isWordChar c = false.
Proof.
  intros H. apply negb_true_iff. revert H. apply implb_true_iff.
  by_enumeration c.
Qed.

Lemma isMetacharacter_syntax c :
  ResumeParser.isMetacharacter c = RegExp.isSyntaxCharacter c.
Proof.
  apply eqb_prop. by_enumeration c.
Qed.


End StringFacts.

(** ** Regular expressions of the extractor *)

Section RegExpFacts.
Import JsString RegExp.

Lemma parseTerms_plain c prev rest :
  isSyntaxCharacter c = false →
  parseTerms prev (String c rest) = consNode (Char c) (parseTerms Atom rest).
Proof.
  intros H. destruct c as [[] [] [] [] [] [] [] []];
    first [ discriminate H | reflexivity ].
Qed.

Lemma parseTerms_escaped c prev rest :
  isSyntaxCharacter c = true →
  parseTerms prev (String "092"%char (String c rest))
  = consNode (Char c) (parseTerms Atom rest).
Proof.
  intros H. destruct c as [[] [] [] [] [] [] [] []];
    first [ discriminate H | reflexivity ].
Qed.

(** The escaped pattern parses to the literal code units of the pattern,
    whatever they are. *)
Lemma parseTerms_escapeMetacharacters p prev rest :
  parseTerms prev (ResumeParser.escapeMetacharacters p +:+ rest)
  = ns ← parseTerms (if p is EmptyString then prev else Atom) rest;
    Returns ((Char <$> chars p) ++ ns).
Proof.
  revert prev. induction p as [|c p IH]; intros prev.
  - rewrite append_nil_l. simpl. by destruct (parseTerms prev rest).
  - cbn [ResumeParser.escapeMetacharacters]. rewrite isMetacharacter_syntax.
    destruct (isSyntaxCharacter c) eqn:Hc.
    + rewrite !append_cons, parseTerms_escaped, IH by done.
      destruct p; simpl; by destruct (parseTerms Atom rest).
    + rewrite append_cons, parseTerms_plain, IH by done.
      destruct p; simpl; by destruct (parseTerms Atom rest).
Qed.

Lemma parseTerms_wholeWord p :
  parseTerms NoAtom ("\b" +:+ ResumeParser.escapeMetacharacters p +:+ "\b")
  = Returns (wholeWordNodes p).
Proof.
  change (parseTerms NoAtom ("\b" +:+ ?s))
    with (consNode WordBoundary (parseTerms NoAtom s)).
  rewrite parseTerms_escapeMetacharacters.
  by destruct p.
Qed.

Lemma new_wholeWord p f :
  RegExp.new ("\b" +:+ ResumeParser.escapeMetacharacters p +:+ "\b") f
  = Returns {| nodes := wholeWordNodes p; reFlags := f; lastIndex := 0 |}.
Proof. unfold RegExp.new. by rewrite parseTerms_wholeWord. Qed.

(** A test with a new expression searches the whole text. *)
Lemma test_new ns f text :
  fst (RegExp.test {| nodes := ns; reFlags := f; lastIndex := 0 |} text)
  = bool_decide (is_Some (search (ignoreCase f) ns None text)).
Proof.
  unfold RegExp.test, exec. simpl.
  replace (if global f then 0 else 0) with 0 by by destruct (global f).
  simpl. by destruct (search _ _ _ _) as [[s e]|].
Qed.

End RegExpFacts.

(** ** The scan *)

Section ScanFacts.
Import ResumeParser.

Lemma firstOccurrences_elem_of ids i : i ∈ firstOccurrences ids ↔ i ∈ ids.
Proof.
  induction ids as [|j ids IH]; simpl; [done|].
  rewrite !elem_of_cons, list_elem_of_filter, IH.
  destruct (decide (i = j)); tauto.
Qed.

Lemma firstOccurrences_NoDup ids : NoDup (firstOccurrences ids).
Proof.
  induction ids as [|j ids IH]; simpl; [constructor|].
  apply NoDup_cons. split.
  - rewrite list_elem_of_filter. tauto.
  - by apply NoDup_filter.
Qed.

Lemma matchingIds_cons text m ms :
  matchingIds text (m :: ms)
  = if matches text (pattern m) then skillId m :: matchingIds text ms
    else matchingIds text ms.
Proof.
  unfold matchingIds. rewrite filter_cons.
  destruct (matches text (pattern m)); by case_decide.
Qed.

(** The loop returns, and what it adds to [extractedSkills] are the ids
    of the matching candidates, first occurrences only, that [seen] does
    not hold yet. *)
Lemma scan_returns text ms extracted (seen : gset string) :
  scan text ms extracted seen
  = Returns (extracted
             ++ filter (λ i, i ∉ seen) (firstOccurrences (matchingIds text ms))).
Proof.
  revert extracted seen. induction ms as [|m ms IH]; intros extracted seen.
  - simpl. by rewrite app_nil_r.
  - cbn [scan]. rewrite new_wholeWord. cbn [mbind completion_bind].
    rewrite test_new. cbn [RegExp.ignoreCase gi].
    fold (matches text (pattern m)). rewrite matchingIds_cons.
    destruct (matches text (pattern m)); cbn [andb]; [|apply IH].
    cbn [firstOccurrences]. case_bool_decide as Hseen; cbn [negb].
    + rewrite IH, filter_cons_False by tauto.
      f_equal. f_equal. rewrite list_filter_filter_l; [done|].
      intros j Hj ->. done.
    + rewrite IH, filter_cons_True, <- app_assoc by done.
      f_equal. simpl. f_equal. f_equal. rewrite list_filter_filter.
      apply list_filter_iff. intros j.
      rewrite not_elem_of_union, not_elem_of_singleton. tauto.
Qed.

Lemma extractSkillsFromText_returns text skills :
  extractSkillsFromText text skills
  = Returns (firstOccurrences
               (matchingIds text
                  (JsArray.sort byLengthDescending (buildSkillMatches skills)))).
Proof.
  unfold extractSkillsFromText. rewrite scan_returns. simpl. f_equal.
  induction (firstOccurrences _) as [|i l IH]; [done|].
  rewrite filter_cons_True by set_solver. by rewrite IH.
Qed.

End ScanFacts.

(** ** The sort *)

Section SortFacts.
Context {A : Type} (key : A → nat) (compareFn : A → A → Z).
Hypothesis compareFn_key : ∀ x y, (compareFn x y ≤ 0)%Z ↔ key y ≤ key x.

Let descending (x y : A) : Prop := key y ≤ key x.

Lemma insertSorted_keeps_key_classes x l k :
  filter (λ y, key y = k) (JsArray.insertSorted compareFn x l)
  = filter (λ y, key y = k) (x :: l).
Proof.
  induction l as [|y l IH]; [done|]. cbn [JsArray.insertSorted].
  destruct (Z.leb_spec (compareFn x y) 0) as [Hle|Hgt]; [done|].
  assert (key x < key y) as Hlt.
  { apply Nat.nle_gt. intros Hn. apply compareFn_key in Hn. lia. }
  rewrite (filter_cons _ y), IH, !(filter_cons _ x), (filter_cons _ y).
  repeat case_decide; (done || lia).
Qed.

Lemma insertSorted_elem_of x l z :
  z ∈ JsArray.insertSorted compareFn x l ↔ z = x ∨ z ∈ l.
Proof.
  induction l as [|y l IH]; cbn [JsArray.insertSorted].
  - by rewrite elem_of_cons.
  - destruct (Z.leb_spec (compareFn x y) 0).
    + by rewrite elem_of_cons.
    + rewrite !elem_of_cons, IH. tauto.
Qed.

Lemma insertSorted_sorted x l :
  StronglySorted descending l →
  StronglySorted descending (JsArray.insertSorted compareFn x l).
Proof.
  induction 1 as [|y l Hl IH Hy]; cbn [JsArray.insertSorted].
  - repeat constructor.
  - destruct (Z.leb_spec (compareFn x y) 0) as [Hle|Hgt].
    + apply compareFn_key in Hle. constructor; [by constructor|].
      constructor; [done|]. eapply Forall_impl; [exact Hy|].
      unfold descending. intros z Hz. lia.
    + constructor; [done|]. apply Forall_forall. intros z Hz.
      apply insertSorted_elem_of in Hz as [->|Hz].
      * unfold descending. apply Nat.lt_le_incl, Nat.nle_gt.
        intros Hn. apply compareFn_key in Hn. lia.
      * rewrite Forall_forall in Hy. by apply Hy.
Qed.

Lemma sort_stable l : StableSortOf key l (JsArray.sort compareFn l).
Proof.
  split.
  - induction l as [|x l IH]; [constructor|]. by apply insertSorted_sorted.
  - intros k. induction l as [|x l IH]; [done|].
    cbn [JsArray.sort foldr]. rewrite insertSorted_keeps_key_classes.
    fold (JsArray.sort compareFn l). rewrite !(filter_cons _ x), IH. done.
Qed.

Lemma sort_Permutation l : JsArray.sort compareFn l ≡ₚ l.
Proof.
  induction l as [|x l IH]; [done|]. cbn [JsArray.sort foldr].
  fold (JsArray.sort compareFn l). rewrite <- IH at 2.
  generalize (JsArray.sort compareFn l). clear. intros l.
  induction l as [|y l IH]; cbn [JsArray.insertSorted]; [done|].
  destruct (Z.leb_spec (compareFn x y) 0); [done|].
  rewrite IH. apply Permutation_swap.
Qed.

(** Descending key order and the order inside each key class leave one
    list only. *)
Lemma sorted_key_classes_unique (s1 s2 : list A) :
  StronglySorted descending s1 → StronglySorted descending s2 →
  (∀ k, filter (λ y, key y = k) s1 = filter (λ y, key y = k) s2) →
  s1 = s2.
Proof.
  intros H1. revert s2. induction H1 as [|x s1 Hs1 IH Hx]; intros s2 H2 Heq.
  - destruct s2 as [|y s2]; [done|]. specialize (Heq (key y)).
    by rewrite filter_nil, filter_cons_True in Heq.
  - destruct H2 as [|y s2 Hs2 Hy].
    { specialize (Heq (key x)). by rewrite filter_nil, filter_cons_True in Heq. }
    assert (key x = key y) as Hk.
    { apply Nat.le_antisymm.
      - assert (x ∈ y :: s2) as Hin.
        { eapply (list_elem_of_filter (λ z, key z = key x)).
          rewrite <- Heq, filter_cons_True by done. left. }
        apply elem_of_cons in Hin as [->|Hin]; [done|].
        rewrite Forall_forall in Hy. by apply Hy.
      - assert (y ∈ x :: s1) as Hin.
        { eapply (list_elem_of_filter (λ z, key z = key y)).
          rewrite Heq, filter_cons_True by done. left. }
        apply elem_of_cons in Hin as [->|Hin]; [done|].
        rewrite Forall_forall in Hx. by apply Hx. }
    pose proof (Heq (key x)) as Hhead.
    rewrite !filter_cons_True in Hhead by done.
    injection Hhead as -> Htail. f_equal. apply IH; [done|].
    intros k. destruct (decide (k = key y)) as [->|Hne]; [done|].
    specialize (Heq k). by rewrite !filter_cons_False in Heq by congruence.
Qed.

Lemma StableSortOf_unique l s1 s2 :
  StableSortOf key l s1 → StableSortOf key l s2 → s1 = s2.
Proof.
  intros [H1 E1] [H2 E2]. apply sorted_key_classes_unique; [done..|].
  intros k. by rewrite E1, E2.
Qed.

End SortFacts.

Lemma byLengthDescending_key x y :
  (ResumeParser.byLengthDescending x y ≤ 0)%Z ↔ patternLength y ≤ patternLength x.
Proof. unfold ResumeParser.byLengthDescending, patternLength. lia. Qed.

(** ** What the whole-word test finds *)

Section MatchFacts.
Import JsString RegExp.

Lemma lastChar_cons c s : lastChar (String c s) = Some (default c (lastChar s)).
Proof.
  revert c. induction s as [|d s IH]; intros c; [done|].
  change (lastChar (String c (String d s))) with (lastChar (String d s)).
  by rewrite IH.
Qed.




Lemma is_Some_option_map {X Y} (f : X → Y) (o : option X) :
  is_Some (option_map f o) ↔ is_Some o.
Proof. destruct o; simpl; split; intros [? ?]; by eauto. Qed.

Lemma any_cons p c s : JsString.any p (String c s) = p c || JsString.any p s.
Proof. reflexivity. Qed.

(** Without a word character no boundary exists, so no pattern that
    opens with [\b] is found. *)
Lemma search_without_word_char ic ns prev rest :
  isWordCharAt prev = false → hasWordChar rest = false →
  search ic (WordBoundary :: ns) prev rest = None.
Proof.
  revert prev. induction rest as [|d rest IH]; intros prev Hp Hr.
  - simpl. by rewrite Hp.
  - unfold hasWordChar in Hr. rewrite any_cons in Hr.
    apply orb_false_iff in Hr as [Hd Hr].
    cbn [search matchHere head isWordCharAt]. rewrite Hp, Hd. cbn [xorb].
    by rewrite IH.
Qed.

(** The empty pattern, [\b\b], is found as soon as the text has a word
    character. *)
Lemma search_empty_pattern ic prev rest :
  isWordCharAt prev = false → hasWordChar rest = true →
  is_Some (search ic (wholeWordNodes "") prev rest).
Proof.
  revert prev. induction rest as [|d rest IH]; intros prev Hp Hr; [done|].
  unfold hasWordChar in Hr. rewrite any_cons in Hr.
  cbn [search wholeWordNodes chars fmap list_fmap app matchHere head isWordCharAt].
  simpl map. cbn [app matchHere head isWordCharAt]. rewrite Hp.
  destruct (isWordChar d) eqn:Hd; cbn [xorb]; [by eexists|].
  apply is_Some_option_map, IH; done.
Qed.



Lemma head_toLowerCase s : head (toLowerCase s) = lowerChar <$> head s.
Proof. by destruct s. Qed.


Lemma isWordCharAt_lower o : isWordCharAt (lowerChar <$> o) = isWordCharAt o.
Proof. destruct o; simpl; [apply isWordChar_lowerChar|done]. Qed.






End MatchFacts.

(** ** The extractor as a whole *)

Section ExtractFacts.
Import JsString ResumeParser.

Lemma sorted_candidates_elem_of (m : SkillMatch) l :
  m ∈ JsArray.sort byLengthDescending l ↔ m ∈ l.
Proof. by rewrite sort_Permutation. Qed.

Lemma matchingIds_elem_of text ms i :
  i ∈ matchingIds text ms
  ↔ ∃ m, m ∈ ms ∧ skillId m = i ∧ matches text (pattern m) = true.
Proof.
  unfold matchingIds. rewrite list_elem_of_fmap. split.
  - intros (m & -> & Hm). apply list_elem_of_filter in Hm as [? ?]. eauto.
  - intros (m & Hm & <- & Hmatch). exists m. split; [done|].
    by apply list_elem_of_filter.
Qed.

Lemma extractSkillsFromText_elem_of text skills :
  ∃ ids, extractSkillsFromText text skills = Returns ids ∧ NoDup ids
    ∧ ∀ i, i ∈ ids
        ↔ ∃ m, m ∈ buildSkillMatches skills ∧ skillId m = i
               ∧ matches text (pattern m) = true.
Proof.
  eexists. split; [apply extractSkillsFromText_returns|].
  split; [apply firstOccurrences_NoDup|]. intros i.
  rewrite firstOccurrences_elem_of, matchingIds_elem_of.
  by setoid_rewrite sorted_candidates_elem_of.
Qed.



Lemma whitespaceOnly_no_word_char text :
  whitespaceOnly text = true → hasWordChar text = false.
Proof.
  unfold whitespaceOnly, hasWordChar, JsString.all, JsString.any.
  induction (chars text) as [|c l IH]; simpl; [done|].
  intros [Hc Hl]%andb_true_iff. by rewrite isWhiteSpace_not_word, IH.
Qed.

Lemma matches_without_word_char text p :
  hasWordChar text = false → matches text p = false.
Proof.
  intros H. unfold matches, wholeWordNodes.
  by rewrite search_without_word_char.
Qed.

Lemma extractSkillsFromText_without_word_char text skills :
  hasWordChar text = false → extractSkillsFromText text skills = Returns [].
Proof.
  intros H. rewrite extractSkillsFromText_returns. f_equal.
  replace (matchingIds text _) with (@nil string); [done|].
  unfold matchingIds. induction (JsArray.sort _ _) as [|m ms IH]; [done|].
  rewrite filter_cons_False; [done|]. by rewrite matches_without_word_char.
Qed.

End ExtractFacts.

(** ** Empty patterns and texts without words *)

Section EmptyPattern.
Import JsString ResumeParser.

Lemma buildSkillMatches_elem_of m skills :
  m ∈ buildSkillMatches skills ↔ ∃ s, s ∈ skills ∧ m ∈ skillMatchesOf s.
Proof.
  unfold buildSkillMatches. rewrite list_elem_of_In, in_flat_map.
  by setoid_rewrite list_elem_of_In.
Qed.

(** A label, id or alias that lower-cases to the empty string leaves an
    empty candidate pattern for its skill. *)
Lemma empty_candidate s :
  (toLowerCase (Skill.label s) = ""
   ∨ toLowerCase (Skill.id s) = ""
   ∨ ∃ a, a ∈ Skill.aliases s ∧ toLowerCase a = "") →
  {| pattern := ""; skillId := Skill.id s |} ∈ skillMatchesOf s.
Proof.
  unfold skillMatchesOf. intros [Hl|[Hi|(a & Ha & Hlow)]].
  - rewrite Hl. left.
  - case_bool_decide as Hne.
    + right. rewrite Hi. left.
    + rewrite <- Hne, Hi. left.
  - right. apply elem_of_app. right.
    apply list_elem_of_In, in_map_iff. exists a.
    rewrite Hlow. split; [done|]. by apply list_elem_of_In.
Qed.

(** Every candidate pattern is in lower case. *)
Lemma candidates_lower_case m skills :
  m ∈ buildSkillMatches skills → toLowerCase (pattern m) = pattern m.
Proof.
  intros (s & _ & Hm)%buildSkillMatches_elem_of. unfold skillMatchesOf in Hm.
  apply elem_of_cons in Hm as [->|Hm]; [apply toLowerCase_idemp|].
  apply elem_of_app in Hm as [Hm|Hm].
  - case_bool_decide; [|by apply elem_of_nil in Hm].
    apply list_elem_of_singleton in Hm as ->. apply toLowerCase_idemp.
  - apply list_elem_of_fmap in Hm as (a & -> & _). apply toLowerCase_idemp.
Qed.

Lemma matches_empty_pattern text : matches text "" = hasWordChar text.
Proof.
  destruct (hasWordChar text) eqn:H.
  - apply bool_decide_eq_true. by apply search_empty_pattern.
  - by apply matches_without_word_char.
Qed.

End EmptyPattern.

(** C1, counterexample.  The vocabulary entry for Rust carries an empty
    alias, and the text does not mention Rust.  The extractor records the
    id of Rust all the same: the empty pattern is tested like any other,
    and found.  With the guard of the specification nothing would be
    extracted. *)
Lemma empty_alias_is_recorded :
  let rust :=
    {| Skill.id := "rust"; Skill.label := "Rust";
       Skill.aliases := [""]; Skill.category := language |} in
  {| ResumeParser.pattern := ""; ResumeParser.skillId := "rust" |}
    ∈ ResumeParser.buildSkillMatches [rust]
  ∧ ResumeParser.extractSkillsFromText "hello world" [rust] = Returns ["rust"]
  ∧ extractSkippingEmptyPatterns "hello world" [rust] = Returns [].
Proof.
  intros rust. split; [|split].
  - apply (bool_decide_unpack _). vm_compute. exact I.
  - vm_compute. reflexivity.
  - vm_compute. reflexivity.
Qed.

(** C1, amended.  An empty candidate pattern is not skipped.  For a skill
    with a label, id or alias that lower-cases to the empty string, the
    extractor returns, and the id of that skill is in the output exactly
    when the text holds at least one word character (a letter, a digit or
    an underscore): the pattern compiled from the empty string is found
    at the first word boundary.  Only a text without any word character
    keeps the id out. *)
Theorem empty_pattern_matches_at_word_boundary (text : string)
    (skills : list Skill.t) (s : Skill.t) :
  s ∈ skills →
  (JsString.toLowerCase (Skill.label s) = ""
   ∨ JsString.toLowerCase (Skill.id s) = ""
   ∨ ∃ a, a ∈ Skill.aliases s ∧ JsString.toLowerCase a = "") →
  ∃ ids, ResumeParser.extractSkillsFromText text skills = Returns ids
    ∧ (Skill.id s ∈ ids ↔ hasWordChar text = true).
Proof.
  intros Hs Hempty.
  destruct (extractSkillsFromText_elem_of text skills) as (ids & Hret & _ & Hin).
  exists ids. split; [done|]. rewrite Hin. split.
  - intros (m & _ & _ & Hm). destruct (hasWordChar text) eqn:Hw; [done|].
    by rewrite matches_without_word_char in Hm.
  - intros Hw. exists {| ResumeParser.pattern := ""; ResumeParser.skillId := Skill.id s |}.
    split_and!; [|done|].
    + apply buildSkillMatches_elem_of. exists s. split; [done|].
      by apply empty_candidate.
    + simpl. by rewrite matches_empty_pattern.
Qed.

Lemma empty_pattern_matches_at_word_boundary_witness :
  let rust :=
    {| Skill.id := "rust"; Skill.label := "Rust";
       Skill.aliases := [""]; Skill.category := language |} in
  ∃ ids, ResumeParser.extractSkillsFromText "hello world" [rust] = Returns ids
    ∧ (Skill.id rust ∈ ids ↔ hasWordChar "hello world" = true).
Proof.
  intros rust.
  apply (empty_pattern_matches_at_word_boundary "hello world" [rust] rust).
  - apply (bool_decide_unpack _). vm_compute. exact I.
  - right. right. exists "". split; [|reflexivity].
    apply (bool_decide_unpack _). vm_compute. exact I.
Defined.

(** C8.  A text that is empty or holds white space only yields the empty
    list, whatever the vocabulary; nothing is thrown. *)
Theorem blank_text_yields_nothing (text : string) (skills : list Skill.t) :
  whitespaceOnly text = true →
  ResumeParser.extractSkillsFromText text skills = Returns [].
Proof.
  intros H. by apply extractSkillsFromText_without_word_char,
    whitespaceOnly_no_word_char.
Qed.

Lemma blank_text_yields_nothing_witness :
  (whitespaceOnly "" = true
   ∧ ResumeParser.extractSkillsFromText "" scenarioVocabulary = Returns [])
  ∧ (whitespaceOnly "   " = true
     ∧ ResumeParser.extractSkillsFromText "   " scenarioVocabulary = Returns []).
Proof.
  split; (split; [reflexivity|]).
  - apply (blank_text_yields_nothing "" scenarioVocabulary). reflexivity.
  - apply (blank_text_yields_nothing "   " scenarioVocabulary). reflexivity.
Defined.

(** ** Java and JavaScript *)

Section JavaFacts.
Import JsString ResumeParser.






End JavaFacts.



(** The three kinds of text of C2, on the vocabulary of the scenario. *)
Example java_and_javascript_examples :
  ResumeParser.extractSkillsFromText "Java and JavaScript" scenarioVocabulary
  = Returns ["js"; "java"]
  ∧ ResumeParser.extractSkillsFromText "I write JavaScript daily." scenarioVocabulary
    = Returns ["js"]
  ∧ ResumeParser.extractSkillsFromText "Ten years of JAVA." scenarioVocabulary
    = Returns ["java"].
Proof. by vm_compute. Qed.

(** C3.  The candidates are tested in the order the sort leaves them in:
    a permutation of the candidate list in descending pattern length in
    which the candidates of each length keep the order of the candidate
    list, that is the declaration order of the vocabulary (the candidates
    of an earlier skill stand before those of a later one).  The output is
    the list of the ids of the matching candidates in that order, each id
    kept where it comes first.  On the scenario of the specification the
    result is js, then java. *)
Theorem candidates_longest_first_stable (text : string) (skills : list Skill.t) :
  let candidates := ResumeParser.buildSkillMatches skills in
  let sorted := JsArray.sort ResumeParser.byLengthDescending candidates in
  (∀ s rest, ResumeParser.buildSkillMatches (s :: rest)
             = ResumeParser.skillMatchesOf s ++ ResumeParser.buildSkillMatches rest)
  ∧ sorted ≡ₚ candidates
  ∧ StronglySorted (λ a b, patternLength b ≤ patternLength a) sorted
  ∧ (∀ n, filter (λ m, patternLength m = n) sorted
          = filter (λ m, patternLength m = n) candidates)
  ∧ ResumeParser.extractSkillsFromText text skills
    = Returns (firstOccurrences (matchingIds text sorted))
  ∧ ResumeParser.extractSkillsFromText scenarioText scenarioVocabulary
    = Returns ["js"; "java"].
Proof.
  intros candidates sorted.
  destruct (sort_stable patternLength _ byLengthDescending_key candidates) as [? ?].
  split_and!; [done| |done|done| |by vm_compute].
  - apply sort_Permutation.
  - apply extractSkillsFromText_returns.
Qed.

(** C4.  Whatever the text and the vocabulary (ids unique or not), the
    extractor returns a list without duplicates.  It holds exactly the ids
    that have a matching candidate, so the scan goes on over all
    candidates.  A matching candidate whose id is not seen yet has its id
    recorded and marked as seen; a candidate whose id is already seen is
    passed over; in both cases the scan goes on with the next one. *)
Theorem extractSkillsFromText_no_duplicates (text : string) (skills : list Skill.t) :
  ∃ ids, ResumeParser.extractSkillsFromText text skills = Returns ids
    ∧ NoDup ids
    ∧ (∀ i, i ∈ ids
        ↔ ∃ m, m ∈ ResumeParser.buildSkillMatches skills
               ∧ ResumeParser.skillId m = i
               ∧ matches text (ResumeParser.pattern m) = true)
    ∧ (∀ m rest extracted (seen : gset string),
         matches text (ResumeParser.pattern m) = true →
         ResumeParser.skillId m ∉ seen →
         ResumeParser.scan text (m :: rest) extracted seen
         = ResumeParser.scan text rest (extracted ++ [ResumeParser.skillId m])
             ({[ResumeParser.skillId m]} ∪ seen))
    ∧ (∀ m rest extracted (seen : gset string),
         ResumeParser.skillId m ∈ seen →
         ResumeParser.scan text (m :: rest) extracted seen
         = ResumeParser.scan text rest extracted seen).
Proof.
  destruct (extractSkillsFromText_elem_of text skills) as (ids & Hret & Hnd & Hin).
  exists ids. split_and!; [done..| |].
  - intros m rest extracted seen Hm Hseen. cbn [ResumeParser.scan].
    rewrite new_wholeWord. cbn [mbind completion_bind].
    rewrite test_new. cbn [RegExp.ignoreCase ResumeParser.gi].
    fold (matches text (ResumeParser.pattern m)).
    by rewrite Hm, bool_decide_eq_false_2.
  - intros m rest extracted seen Hseen. cbn [ResumeParser.scan].
    rewrite new_wholeWord. cbn [mbind completion_bind].
    by rewrite bool_decide_eq_true_2, andb_false_r.
Qed.

(** C5.  The extractor never throws, whatever the strings of the
    vocabulary and of the text: the characters the source escapes are all
    the syntax characters of the pattern grammar, so the escaped pattern
    between its two boundaries always compiles, to the literal code units
    of the pattern.  With C++, C# and other punctuation in the vocabulary
    the extractor returns, while the unescaped source of C++ would be
    rejected.  (Whether such a pattern is found is another matter: no word
    boundary follows a closing + or # before a space, so the example
    returns the empty list.) *)
Theorem extractSkillsFromText_never_throws (text : string) (skills : list Skill.t) :
  (∃ ids, ResumeParser.extractSkillsFromText text skills = Returns ids)
  ∧ (∀ c, ResumeParser.isMetacharacter c = RegExp.isSyntaxCharacter c)
  ∧ (∀ p f, RegExp.new ("\b" +:+ ResumeParser.escapeMetacharacters p +:+ "\b") f
            = Returns {| RegExp.nodes := wholeWordNodes p; RegExp.reFlags := f;
                         RegExp.lastIndex := 0 |})
  ∧ RegExp.new ("\b" +:+ "c++" +:+ "\b") ResumeParser.gi
    = Throws (SyntaxError "Nothing to repeat")
  ∧ ResumeParser.extractSkillsFromText "C++, C# and (more) a.b*c?"
      [ {| Skill.id := "cpp"; Skill.label := "C++";
           Skill.aliases := ["c#"; "(more)"; "a.b*c?"; "[x"];
           Skill.category := language |} ]
    = Returns [].
Proof.
  split_and!.
  - eexists. apply extractSkillsFromText_returns.
  - apply isMetacharacter_syntax.
  - apply new_wholeWord.
  - reflexivity.
  - by vm_compute.
Qed.

(** A global expression that is kept and tested again starts where the
    last match ended.  The extractor makes a new expression for every
    candidate, so no such state reaches a later test or a later call. *)
Example kept_expression_remembers_lastIndex :
  let regex :=
    {| RegExp.nodes := wholeWordNodes "java"; RegExp.reFlags := ResumeParser.gi;
       RegExp.lastIndex := 0 |} in
  let '(first, regex') := RegExp.test regex "Java" in
  let '(second, _) := RegExp.test regex' "Java" in
  (first, RegExp.lastIndex regex', second) = (true, 4, false).
Proof. reflexivity. Qed.

(** C9.  Two invocations on the same text and vocabulary, one after the
    other, both return, and return the same list.  Nothing is kept from
    one call to the next: every test runs on a new expression, whose
    search starts at index 0 and depends on the pattern and the text only;
    and the order of the scan does not depend on how the engine sorts, for
    any stable sort by descending pattern length leaves the same list. *)
Theorem extractSkillsFromText_deterministic (text : string) (skills : list Skill.t) :
  (∃ ids,
     (first ← ResumeParser.extractSkillsFromText text skills;
      second ← ResumeParser.extractSkillsFromText text skills;
      Returns (first, second)) = Returns (ids, ids))
  ∧ (∀ p, ∃ regex,
       RegExp.new ("\b" +:+ ResumeParser.escapeMetacharacters p +:+ "\b") ResumeParser.gi
       = Returns regex
       ∧ RegExp.lastIndex regex = 0
       ∧ fst (RegExp.test regex text) = matches text p)
  ∧ (∀ sorted,
       StableSortOf patternLength (ResumeParser.buildSkillMatches skills) sorted →
       ResumeParser.scan text sorted [] ∅
       = ResumeParser.extractSkillsFromText text skills).
Proof.
  split_and!.
  - eexists. by rewrite extractSkillsFromText_returns.
  - intros p. eexists. split; [apply new_wholeWord|]. split; [done|].
    by rewrite test_new.
  - intros sorted Hsorted. unfold ResumeParser.extractSkillsFromText. f_equal.
    eapply StableSortOf_unique; [exact Hsorted|].
    apply sort_stable, byLengthDescending_key.
Qed.

Lemma extractSkillsFromText_deterministic_witness :
  let candidate p i := {| ResumeParser.pattern := p; ResumeParser.skillId := i |} in
  let sorted :=
    [candidate "javascript" "js"; candidate "ecmascript" "js";
     candidate "java" "java"; candidate "js" "js"] in
  StableSortOf patternLength (ResumeParser.buildSkillMatches scenarioVocabulary) sorted
  ∧ ResumeParser.scan scenarioText sorted [] ∅
    = ResumeParser.extractSkillsFromText scenarioText scenarioVocabulary.
Proof.
  intros candidate sorted.
  assert (StableSortOf patternLength
            (ResumeParser.buildSkillMatches scenarioVocabulary) sorted) as H.
  { change sorted with
      (JsArray.sort ResumeParser.byLengthDescending
         (ResumeParser.buildSkillMatches scenarioVocabulary)).
    apply sort_stable, byLengthDescending_key. }
  split; [exact H|].
  by apply (extractSkillsFromText_deterministic scenarioText scenarioVocabulary).
Defined.

(** ** Pasted LinkedIn text *)

Section TrimFacts.
Import JsString.

Lemma all_cons p c s : JsString.all p (String c s) = p c && JsString.all p s.
Proof. reflexivity. Qed.

Lemma trimEnd_empty_iff s : trimEnd s = "" ↔ whitespaceOnly s = true.
Proof.
  unfold whitespaceOnly. induction s as [|c s IH]; [done|].
  rewrite all_cons, andb_true_iff, <- IH. cbn [trimEnd].
  destruct (trimEnd s); [|split; [done|by intros [_ ?]]].
  destruct (isWhiteSpace c); split; (done || by intros [? ?]).
Qed.

Lemma trimStart_whitespaceOnly s :
  whitespaceOnly (trimStart s) = whitespaceOnly s.
Proof.
  unfold whitespaceOnly. induction s as [|c s IH]; [done|].
  cbn [trimStart]. destruct (isWhiteSpace c) eqn:Hc; [|done].
  by rewrite IH, all_cons, Hc.
Qed.

(** The trimmed text is empty exactly for a text of white space only,
    the empty text included. *)
Lemma trim_length_zero s : (String.length (trim s) =? 0) = whitespaceOnly s.
Proof.
  unfold trim. rewrite <- (trimStart_whitespaceOnly s).
  destruct (whitespaceOnly (trimStart s)) eqn:H.
  - apply trimEnd_empty_iff in H. by rewrite H.
  - destruct (trimEnd (trimStart s)) eqn:E; [|done].
    apply trimEnd_empty_iff in E. congruence.
Qed.

End TrimFacts.

(** ** The cleaning of a pasted text, on the words of the text *)

Section WordsFacts.
Import JsString.

Lemma trimStart_collapseFrom_true s :
  trimStart (collapseFrom true s) = collapseFrom true s.
Proof.
  induction s as [|c s IH]; [done|]. cbn [collapseFrom].
  destruct (isWhiteSpace c) eqn:Hc; [done|]. cbn [trimStart]. by rewrite Hc.
Qed.

Lemma trimStart_collapseWhiteSpace s :
  trimStart (collapseWhiteSpace s) = collapseFrom true s.
Proof.
  unfold collapseWhiteSpace. destruct s as [|c s]; [done|]. cbn [collapseFrom].
  destruct (isWhiteSpace c) eqn:Hc.
  - cbn [trimStart]. change (isWhiteSpace " ") with true. cbn iota.
    apply trimStart_collapseFrom_true.
  - cbn [trimStart]. by rewrite Hc.
Qed.

Lemma trimEnd_cons_word c s :
  isWhiteSpace c = false → trimEnd (String c s) = String c (trimEnd s).
Proof. intros Hc. cbn [trimEnd]. rewrite Hc. by destruct (trimEnd s). Qed.

Lemma trimEnd_cons_space s :
  trimEnd (String " " s) = match trimEnd s with "" => "" | t => String " " t end.
Proof. reflexivity. Qed.

(** A word is not empty, so the collapsed text is empty for a text
    without words only. *)
Lemma words_head s w ws : words s = w :: ws → w ≠ "".
Proof.
  revert w ws. induction s as [|c s IH]; intros w ws; [done|]. cbn [words].
  destruct (isWhiteSpace c); [apply IH|].
  destruct (startsWithWhiteSpace s); [by intros [= <- _]|].
  destruct (words s); by intros [= <- _].
Qed.

Lemma concat_words_empty s : String.concat " " (words s) = "" → words s = [].
Proof.
  destruct (words s) as [|w ws] eqn:Hw; [done|].
  apply words_head in Hw. destruct w as [|c w]; [done|].
  cbn [String.concat]. destruct ws; [done|]. by rewrite append_cons.
Qed.

Lemma trimEnd_collapseFrom s :
  trimEnd (collapseFrom true s) = String.concat " " (words s)
  ∧ trimEnd (collapseFrom false s)
    = if startsWithWhiteSpace s
      then match words s with
           | [] => ""
           | _ => String " " (String.concat " " (words s))
           end
      else String.concat " " (words s).
Proof.
  induction s as [|c s [IH1 IH2]]; [done|].
  cbn [collapseFrom words startsWithWhiteSpace].
  destruct (isWhiteSpace c) eqn:Hc.
  - split; [done|]. rewrite trimEnd_cons_space, IH1.
    destruct (String.concat " " (words s)) eqn:Hs.
    + by rewrite (concat_words_empty s Hs).
    + by destruct (words s).
  - assert (trimEnd (String c (collapseFrom false s))
            = String.concat " "
                (if startsWithWhiteSpace s then String c "" :: words s
                 else match words s with
                      | [] => [String c ""]
                      | w :: ws => String c w :: ws
                      end)) as H; [|done].
    rewrite (trimEnd_cons_word c _ Hc), IH2.
    destruct (startsWithWhiteSpace s).
    + destruct (words s) as [|w ws]; [done|]. cbn [String.concat].
      by rewrite append_cons.
    + destruct (words s) as [|w [|w' ws]]; [done..|]. cbn [String.concat].
      by rewrite append_cons.
Qed.

(** What the code does to the text, each run of white space replaced by
    one space and the ends trimmed, gives the collapsed text. *)
Lemma trim_collapseWhiteSpace s :
  trim (collapseWhiteSpace s) = whitespaceCollapsed s.
Proof.
  unfold trim. rewrite trimStart_collapseWhiteSpace. apply trimEnd_collapseFrom.
Qed.

End WordsFacts.

(** C10.  [parseLinkedInText] throws its error for the empty text and for
    a text of white space only.  For every other text (every text that is
    not blank) it returns what the extractor returns on the
    white-space-collapsed text, the words of the text with one space
    between two of them, and that call does return; the text the code
    hands over, each run of white space replaced by one space and the
    ends trimmed, is that collapsed text. *)
Theorem parseLinkedInText_blank_or_extract (text : string) (skills : list Skill.t) :
  (text = "" ∨ whitespaceOnly text = true →
   LinkedinParser.parseLinkedInText text skills
   = Throws (Error "Please paste some text from your LinkedIn profile."))
  ∧ (whitespaceOnly text = false →
     JsString.trim (JsString.collapseWhiteSpace text) = whitespaceCollapsed text
     ∧ LinkedinParser.parseLinkedInText text skills
       = ResumeParser.extractSkillsFromText (whitespaceCollapsed text) skills
     ∧ ∃ ids, LinkedinParser.parseLinkedInText text skills = Returns ids).
Proof.
  unfold LinkedinParser.parseLinkedInText. rewrite trim_length_zero. split.
  - intros [->|H]; [done|]. by rewrite H, orb_true_r.
  - intros H. rewrite H, orb_false_r.
    rewrite bool_decide_eq_false_2 by (by intros ->).
    rewrite trim_collapseWhiteSpace.
    split; [done|]. split; [done|]. eexists. apply extractSkillsFromText_returns.
Qed.

Lemma parseLinkedInText_blank_or_extract_witness :
  let noBreakSpace := String "160"%char "" in
  let pasted :=
    String "009"%char "Java" +:+ noBreakSpace +:+ " and"
    +:+ String "010"%char (String "013"%char "JavaScript  ") in
  LinkedinParser.parseLinkedInText "" scenarioVocabulary
  = Throws (Error "Please paste some text from your LinkedIn profile.")
  ∧ LinkedinParser.parseLinkedInText ("  " +:+ noBreakSpace) scenarioVocabulary
    = Throws (Error "Please paste some text from your LinkedIn profile.")
  ∧ words pasted = ["Java"; "and"; "JavaScript"]
  ∧ JsString.trim (JsString.collapseWhiteSpace pasted) = "Java and JavaScript"
  ∧ LinkedinParser.parseLinkedInText pasted scenarioVocabulary
    = ResumeParser.extractSkillsFromText "Java and JavaScript" scenarioVocabulary.
Proof.
  intros noBreakSpace pasted. split; [|split; [|split; [reflexivity|split]]].
  - apply (parseLinkedInText_blank_or_extract "" scenarioVocabulary). by left.
  - apply (parseLinkedInText_blank_or_extract ("  " +:+ noBreakSpace) scenarioVocabulary).
    by right.
  - apply (parseLinkedInText_blank_or_extract pasted scenarioVocabulary). reflexivity.
  - apply (parseLinkedInText_blank_or_extract pasted scenarioVocabulary). reflexivity.
Defined.

(** ** Readiness *)

Section ReadinessFacts.
Import GapAnalysis.

Lemma importanceValue_range i : (1 ≤ importanceValue i ≤ 3)%Z.
Proof. destruct i; simpl; lia. Qed.

Lemma totalImportance_nonneg rs : (0 ≤ totalImportance rs)%Z.
Proof.
  induction rs as [|r rs IH]; simpl; [lia|].
  pose proof (importanceValue_range (RoleSkillRequirement.importance r)). lia.
Qed.

Lemma totalImportance_pos rs : rs ≠ [] → (0 < totalImportance rs)%Z.
Proof.
  destruct rs as [|r rs]; [done|]. intros _. simpl.
  pose proof (importanceValue_range (RoleSkillRequirement.importance r)).
  pose proof (totalImportance_nonneg rs). lia.
Qed.

Lemma totalImportance_filter (P : RoleSkillRequirement.t → Prop)
    `{!∀ r, Decision (P r)} rs :
  (0 ≤ totalImportance (filter P rs) ≤ totalImportance rs)%Z.
Proof.
  induction rs as [|r rs IH]; [simpl; lia|].
  pose proof (importanceValue_range (RoleSkillRequirement.importance r)).
  rewrite filter_cons. case_decide; simpl; lia.
Qed.

(** [roundRatio n d] is the integer nearest to [n / d], a half going up. *)
Lemma roundRatio_nearest n d :
  (0 < d)%Z →
  (2 * roundRatio n d * d - d ≤ 2 * n < 2 * roundRatio n d * d + d)%Z.
Proof.
  intros Hd. unfold roundRatio.
  pose proof (Z.div_mod (2 * n + d) (2 * d) ltac:(lia)) as Hdm.
  pose proof (Z.mod_pos_bound (2 * n + d) (2 * d) ltac:(lia)) as Hb.
  nia.
Qed.

Lemma roundRatio_percent m d :
  (0 < d)%Z → (0 ≤ m ≤ d)%Z → (0 ≤ roundRatio (100 * m) d ≤ 100)%Z.
Proof.
  intros Hd Hm. pose proof (roundRatio_nearest (100 * m) d Hd). nia.
Qed.

End ReadinessFacts.

(** C6.  For a role without requirements, and any skills of the user,
    both readiness scores are 100; the analysis takes this case by itself,
    ahead of the two quotients. *)
Theorem readiness_of_role_without_requirements (userSkills : list string)
    (role : RoleDefinition.t) (skills : list Skill.t) :
  RoleDefinition.requiredSkills role = [] →
  GapAnalysisResult.readinessPercent (GapAnalysis.analyzeGaps userSkills role skills)
  = 100%Z
  ∧ GapAnalysisResult.weightedReadinessPercent
      (GapAnalysis.analyzeGaps userSkills role skills) = 100%Z.
Proof. intros H. unfold GapAnalysis.analyzeGaps. simpl. by rewrite H. Qed.

Lemma readiness_of_role_without_requirements_witness :
  GapAnalysisResult.readinessPercent
    (GapAnalysis.analyzeGaps ["a"; "b"] emptyRole scenarioSkills) = 100%Z
  ∧ GapAnalysisResult.weightedReadinessPercent
      (GapAnalysis.analyzeGaps ["a"; "b"] emptyRole scenarioSkills) = 100%Z.
Proof.
  apply (readiness_of_role_without_requirements ["a"; "b"] emptyRole scenarioSkills).
  reflexivity.
Defined.

(** C7.  For a role with at least one requirement the weighted readiness
    is the rounded quotient of 100 times the importance summed over the
    matched requirements by the importance summed over all requirements.
    The weights are the importance values 1, 2 and 3 as they stand, so the
    total is positive; the score is the integer nearest to the quotient (a
    half goes up) and lies between 0 and 100.  In the scenario (A of
    importance 3 missing, B of importance 1 present) the weighted
    readiness is 25 and the simple readiness 50. *)
Theorem weighted_readiness_is_rounded_ratio (userSkills : list string)
    (role : RoleDefinition.t) (skills : list Skill.t) :
  RoleDefinition.requiredSkills role ≠ [] →
  let result := GapAnalysis.analyzeGaps userSkills role skills in
  let requirements := RoleDefinition.requiredSkills role in
  let matched :=
    filter (λ r, RoleSkillRequirement.skillId r
                 ∈ GapAnalysisResult.normalizedUserSkills result) requirements in
  let weight r := importanceValue (RoleSkillRequirement.importance r) in
  let matchedWeight := foldr Z.add 0%Z (weight <$> matched) in
  let totalWeight := foldr Z.add 0%Z (weight <$> requirements) in
  let w := GapAnalysisResult.weightedReadinessPercent result in
  (∀ r, r ∈ requirements → (1 ≤ weight r ≤ 3)%Z)
  ∧ (0 ≤ matchedWeight ≤ totalWeight ∧ 0 < totalWeight)%Z
  ∧ w = ((2 * (100 * matchedWeight) + totalWeight) / (2 * totalWeight))%Z
  ∧ (2 * w * totalWeight - totalWeight ≤ 2 * (100 * matchedWeight)
     < 2 * w * totalWeight + totalWeight)%Z
  ∧ (0 ≤ w ≤ 100)%Z
  ∧ GapAnalysisResult.weightedReadinessPercent
      (GapAnalysis.analyzeGaps ["b"] scenarioRole scenarioSkills) = 25%Z
  ∧ GapAnalysisResult.readinessPercent
      (GapAnalysis.analyzeGaps ["b"] scenarioRole scenarioSkills) = 50%Z.
Proof.
  intros Hne result requirements matched weight matchedWeight totalWeight w.
  assert (∀ rs, foldr Z.add 0%Z (weight <$> rs) = GapAnalysis.totalImportance rs) as Hsum.
  { unfold GapAnalysis.totalImportance, weight.
    induction rs as [|r rs IH]; simpl; [done|]. by f_equal. }
  assert (matched
          = filter (λ r, GapAnalysis.hasSkill
                           (GapAnalysisResult.normalizedUserSkills result) r = true)
              requirements) as Hmatched.
  { apply list_filter_iff. intros r. unfold GapAnalysis.hasSkill.
    by rewrite bool_decide_eq_true. }
  assert (w = GapAnalysis.roundRatio (100 * matchedWeight) totalWeight) as Hw.
  { subst w matchedWeight totalWeight. rewrite !Hsum, Hmatched.
    subst result requirements. unfold GapAnalysis.analyzeGaps. simpl.
    by destruct (RoleDefinition.requiredSkills role). }
  assert (0 < totalWeight)%Z as Hpos.
  { subst totalWeight. rewrite Hsum. by apply totalImportance_pos. }
  assert (0 ≤ matchedWeight ≤ totalWeight)%Z as Hle.
  { subst matchedWeight totalWeight matched. rewrite !Hsum.
    apply totalImportance_filter. }
  pose proof (roundRatio_nearest (100 * matchedWeight) totalWeight Hpos) as Hnear.
  pose proof (roundRatio_percent matchedWeight totalWeight Hpos Hle) as Hrange.
  rewrite <- Hw in Hnear, Hrange. unfold GapAnalysis.roundRatio in Hw.
  clearbody w matchedWeight totalWeight.
  split_and!; try lia; try done.
  intros r _. apply importanceValue_range.
Qed.

Lemma weighted_readiness_is_rounded_ratio_witness :
  let result := GapAnalysis.analyzeGaps ["b"] scenarioRole scenarioSkills in
  let requirements := RoleDefinition.requiredSkills scenarioRole in
  let matched :=
    filter (λ r, RoleSkillRequirement.skillId r
                 ∈ GapAnalysisResult.normalizedUserSkills result) requirements in
  let weight r := importanceValue (RoleSkillRequirement.importance r) in
  let matchedWeight := foldr Z.add 0%Z (weight <$> matched) in
  let totalWeight := foldr Z.add 0%Z (weight <$> requirements) in
  let w := GapAnalysisResult.weightedReadinessPercent result in
  (∀ r, r ∈ requirements → (1 ≤ weight r ≤ 3)%Z)
  ∧ (0 ≤ matchedWeight ≤ totalWeight ∧ 0 < totalWeight)%Z
  ∧ w = ((2 * (100 * matchedWeight) + totalWeight) / (2 * totalWeight))%Z
  ∧ (2 * w * totalWeight - totalWeight ≤ 2 * (100 * matchedWeight)
     < 2 * w * totalWeight + totalWeight)%Z
  ∧ (0 ≤ w ≤ 100)%Z
  ∧ GapAnalysisResult.weightedReadinessPercent
      (GapAnalysis.analyzeGaps ["b"] scenarioRole scenarioSkills) = 25%Z
  ∧ GapAnalysisResult.readinessPercent
      (GapAnalysis.analyzeGaps ["b"] scenarioRole scenarioSkills) = 50%Z.
Proof.
  apply (weighted_readiness_is_rounded_ratio ["b"] scenarioRole scenarioSkills).
  discriminate.
Defined.

(** ** Searching in strings: what the functions find *)

Section SearchFacts.
Import JsString JsSearch.

Lemma length_append s t :
  String.length (s +:+ t) = String.length s + String.length t.
Proof. induction s as [|c s IH]; [done|]. rewrite append_cons. simpl. by rewrite IH. Qed.

Lemma append_empty_r s : s +:+ "" = s.
Proof. induction s as [|c s IH]; [done|]. by rewrite append_cons, IH. Qed.

Lemma append_associative s t u : (s +:+ t) +:+ u = s +:+ t +:+ u.
Proof. induction s as [|c s IH]; [done|]. by rewrite !append_cons, IH. Qed.

Lemma startsWith_spec s search :
  startsWith s search = true ↔ ∃ rest, s = search +:+ rest.
Proof.
  revert s. induction search as [|p search IH]; intros s.
  - split; [by exists s|by destruct s].
  - destruct s as [|c s].
    + split; [done|]. by intros [rest ?].
    + cbn [startsWith]. rewrite andb_true_iff, Ascii.eqb_eq, IH. split.
      * intros [-> [rest ->]]. by exists rest.
      * intros [rest Heq]. rewrite append_cons in Heq. injection Heq as -> ->. eauto.
Qed.

Lemma includes_spec s search :
  includes s search = true ↔ ∃ before after, s = before +:+ search +:+ after.
Proof.
  induction s as [|c s IH].
  - cbn [includes]. rewrite orb_false_r, startsWith_spec. split.
    + intros [rest Heq]. by exists "", rest.
    + intros (before & after & Heq). destruct before; [|done]. by exists after.
  - cbn [includes]. rewrite orb_true_iff, startsWith_spec, IH. split.
    + intros [[rest Heq]|(before & after & ->)].
      * by exists "", rest.
      * by exists (String c before), after.
    + intros (before & after & Heq). destruct before as [|b before].
      * left. by exists after.
      * rewrite append_cons in Heq. injection Heq as -> ->. right. eauto.
Qed.

Lemma dropChars_append s t : dropChars (String.length s) (s +:+ t) = t.
Proof. induction s as [|c s IH]; [by destruct t|]. by rewrite append_cons. Qed.

Lemma dropChars_split n s :
  n ≤ String.length s →
  ∃ before, s = before +:+ dropChars n s ∧ String.length before = n.
Proof.
  revert s. induction n as [|n IH]; intros s Hn.
  - exists "". by destruct s.
  - destruct s as [|c s]; [simpl in Hn; lia|]. simpl in Hn.
    destruct (IH s) as (before & Heq & Hlen); [lia|].
    exists (String c before). simpl. by rewrite append_cons, <- Heq, Hlen.
Qed.

Lemma endsWith_spec s search :
  endsWith s search = true ↔ ∃ before, s = before +:+ search.
Proof.
  unfold endsWith. rewrite andb_true_iff, Nat.leb_le, startsWith_spec. split.
  - intros [Hle [rest Heq]].
    destruct (dropChars_split (String.length s - String.length search) s)
      as (before & Hs & Hlen); [lia|].
    assert (rest = "") as ->.
    { apply (f_equal String.length) in Hs.
      rewrite Heq, !length_append in Hs. destruct rest; [done|]. simpl in Hs. lia. }
    rewrite append_empty_r in Heq. exists before. by rewrite <- Heq.
  - intros [before ->]. rewrite length_append. split; [lia|].
    replace (String.length before + String.length search - String.length search)
      with (String.length before) by lia.
    rewrite dropChars_append. exists "". by rewrite append_empty_r.
Qed.

End SearchFacts.

(** ** Trimming *)

Section TrimMore.
Import JsString.

Lemma trimEnd_idempotent s : trimEnd (trimEnd s) = trimEnd s.
Proof.
  induction s as [|c s IH]; [done|]. cbn [trimEnd].
  destruct (trimEnd s) as [|d t] eqn:E.
  - destruct (isWhiteSpace c) eqn:Hc; [done|]. simpl. by rewrite Hc.
  - change (trimEnd (String c (String d t)))
      with (match trimEnd (String d t) with
            | EmptyString => if isWhiteSpace c then EmptyString else String c EmptyString
            | u => String c u
            end).
    by rewrite IH.
Qed.

Lemma trimStart_fixed c s : isWhiteSpace c = false → trimStart (String c s) = String c s.
Proof. intros H. simpl. by rewrite H. Qed.

Lemma trimEnd_head c s :
  isWhiteSpace c = false → ∃ t, trimEnd (String c s) = String c t.
Proof. intros H. cbn [trimEnd]. rewrite H. destruct (trimEnd s); eauto. Qed.

Lemma trimStart_head s :
  trimStart s = "" ∨ ∃ c t, trimStart s = String c t ∧ isWhiteSpace c = false.
Proof.
  induction s as [|c s IH]; [by left|]. simpl.
  destruct (isWhiteSpace c) eqn:Hc; [done|]. right. eauto.
Qed.

(** Trimming a trimmed string changes nothing. *)
Lemma trim_idempotent s : trim (trim s) = trim s.
Proof.
  unfold trim. destruct (trimStart_head s) as [->|(c & t & -> & Hc)]; [done|].
  destruct (trimEnd_head c t Hc) as [u Hu]. rewrite Hu, trimStart_fixed by done.
  rewrite <- Hu. apply trimEnd_idempotent.
Qed.

End TrimMore.

(** ** Reading resume files *)

Section ResumeFileFacts.
Import JsString JsSearch Effects ResumeFiles.

Lemma tryCatch_Returns {A} (body : attempt A) handler a :
  tryCatch body handler = Returns a ↔ body = Done a.
Proof. destruct body; simpl; split; congruence. Qed.

Lemma tryCatch_Throws {A} (body : attempt A) handler e :
  tryCatch body handler = Throws e ↔ ∃ c, body = Raised c ∧ handler c = e.
Proof.
  destruct body; simpl; split; try congruence; try (by intros (? & ? & ?)).
  - intros [= <-]. eauto.
  - intros (c' & [= <-] & <-). done.
Qed.

Lemma isBlankBelow_false n text :
  isBlankBelow n text = false → n ≤ String.length (trim text).
Proof.
  unfold isBlankBelow. intros [_ H]%orb_false_iff. by apply Nat.ltb_ge in H.
Qed.

Lemma isBlankBelow_trimmed n text :
  0 < n → trim text = text →
  isBlankBelow n text = (String.length text <? n).
Proof.
  intros Hn Htrim. unfold isBlankBelow. rewrite Htrim.
  case_bool_decide as He; [|done]. subst text. simpl. symmetry. by apply Nat.ltb_lt.
Qed.

Lemma extractTextFromTXT_Returns file t :
  extractTextFromTXT file = Returns t
  ↔ ∃ content, text file = Resolved content
      ∧ isBlankBelow 10 content = false ∧ t = trim content.
Proof.
  unfold extractTextFromTXT. rewrite tryCatch_Returns.
  destruct (text file) as [content|c]; simpl.
  - destruct (isBlankBelow 10 content) eqn:Hb; simpl.
    + split; [done|]. intros (? & [= <-] & ? & ?). congruence.
    + split; [intros [= <-]; eauto|]. by intros (? & [= <-] & _ & ->).
  - split; [done|]. by intros (? & ? & _).
Qed.

Lemma extractTextFromPDF_Returns libraries file t :
  extractTextFromPDF libraries file = Returns t
  ↔ ∃ bytes pdfDocument,
      (∃ u, importPdfjs libraries = Resolved u)
      ∧ arrayBuffer file = Resolved bytes
      ∧ startsWith (string_of_list_ascii (take 4 bytes)) "%PDF" = true
      ∧ getDocument libraries bytes = Resolved (Some pdfDocument)
      ∧ numPages pdfDocument ≠ 0
      ∧ isBlankBelow 10 (documentText pdfDocument) = false
      ∧ t = trim (documentText pdfDocument).
Proof.
  unfold extractTextFromPDF. rewrite tryCatch_Returns.
  destruct (importPdfjs libraries) as [u|c]; simpl;
    [|split; [done|by intros (? & ? & [? ?] & _)]].
  destruct (arrayBuffer file) as [bytes|c]; simpl;
    [|split; [done|by intros (? & ? & _ & ? & _)]].
  destruct (startsWith _ "%PDF") eqn:Hh; simpl;
    [|split; [done|intros (? & ? & _ & [= <-] & ? & _); congruence]].
  destruct (getDocument libraries bytes) as [[pdfDocument|]|c] eqn:Hd; simpl;
    [|split; [done|intros (? & ? & _ & [= <-] & _ & ? & _); congruence]..].
  destruct (numPages pdfDocument =? 0) eqn:Hn; simpl.
  { apply Nat.eqb_eq in Hn. split; [done|].
    intros (? & ? & _ & [= <-] & _ & ? & ? & _). congruence. }
  apply Nat.eqb_neq in Hn.
  destruct (isBlankBelow 10 (documentText pdfDocument)) eqn:Hb; simpl.
  - split; [done|]. intros (? & ? & _ & [= <-] & _ & ? & _ & ? & _). congruence.
  - split.
    + intros [= <-]. exists bytes, pdfDocument. eauto 10.
    + intros (? & ? & _ & [= <-] & _ & ? & _ & _ & ->). congruence.
Qed.

Lemma extractTextFromDOCX_Returns libraries file t :
  extractTextFromDOCX libraries file = Returns t
  ↔ ∃ bytes value,
      (∃ u, importMammoth libraries = Resolved u)
      ∧ arrayBuffer file = Resolved bytes
      ∧ hexOfBytes (take 4 bytes) ∈ ["504b0304"; "504b0506"; "504b0708"]
      ∧ extractRawText libraries bytes = Resolved value
      ∧ isBlankBelow 10 value = false
      ∧ t = trim value.
Proof.
  unfold extractTextFromDOCX. rewrite tryCatch_Returns.
  destruct (importMammoth libraries) as [u|c]; simpl;
    [|split; [done|by intros (? & ? & [? ?] & _)]].
  destruct (arrayBuffer file) as [bytes|c]; simpl;
    [|split; [done|by intros (? & ? & _ & ? & _)]].
  assert (hexOfBytes (take 4 bytes) ∈ ["504b0304"; "504b0506"; "504b0708"]
          ↔ (bool_decide (hexOfBytes (take 4 bytes) ≠ "504b0304")
             && bool_decide (hexOfBytes (take 4 bytes) ≠ "504b0506")
             && bool_decide (hexOfBytes (take 4 bytes) ≠ "504b0708")) = false) as Hsig.
  { rewrite !elem_of_cons, elem_of_nil, !andb_false_iff, !bool_decide_eq_false.
    destruct (decide (hexOfBytes (take 4 bytes) = "504b0304"));
      destruct (decide (hexOfBytes (take 4 bytes) = "504b0506"));
      destruct (decide (hexOfBytes (take 4 bytes) = "504b0708")); tauto. }
  destruct (_ && _ && _) eqn:Hh; simpl.
  { split; [done|]. intros (? & ? & _ & [= <-] & ?%Hsig & _). congruence. }
  destruct (extractRawText libraries bytes) as [value|c] eqn:Hv; simpl;
    [|split; [done|intros (? & ? & _ & [= <-] & _ & ? & _); congruence]].
  destruct (isBlankBelow 10 value) eqn:Hb; simpl.
  - split; [done|]. intros (? & ? & _ & [= <-] & _ & ? & ? & _). congruence.
  - split.
    + intros [= <-]. exists bytes, value. split_and!; eauto. by apply Hsig.
    + intros (? & ? & _ & [= <-] & _ & ? & _ & ->). congruence.
Qed.

(** What an extractor returns is trimmed and has ten characters or
    more. *)
Lemma extracted_text_trimmed libraries file t :
  extractTextFromPDF libraries file = Returns t
  ∨ extractTextFromDOCX libraries file = Returns t
  ∨ extractTextFromTXT file = Returns t →
  trim t = t ∧ 10 ≤ String.length t.
Proof.
  intros [H|[H|H]].
  - apply extractTextFromPDF_Returns in H as (? & ? & _ & _ & _ & _ & _ & Hb & ->).
    split; [apply trim_idempotent|by apply isBlankBelow_false].
  - apply extractTextFromDOCX_Returns in H as (? & ? & _ & _ & _ & _ & Hb & ->).
    split; [apply trim_idempotent|by apply isBlankBelow_false].
  - apply extractTextFromTXT_Returns in H as (? & _ & Hb & ->).
    split; [apply trim_idempotent|by apply isBlankBelow_false].
Qed.

End ResumeFileFacts.

(** ** [parseResume] *)

Section ParseResumeFacts.
Import JsString JsSearch Effects ResumeFiles.

(** X1.  What the extractor of a supported file type returns is trimmed
    and has 10 characters or more, and [parseResume] extracts the skills
    of that text, unless the text has fewer than 20 characters: the
    extractors accept a text from 10 characters on, [parseResume] from 20
    on, so a text of 10 to 19 characters is read and then refused as not
    meaningful. *)
Theorem parseResume_on_extracted_text (libraries : Libraries) (file : File)
    (skills : list Skill.t) (extracted : string) :
  (detectFileType file = pdf ∧ extractTextFromPDF libraries file = Returns extracted)
  ∨ (detectFileType file = docx
     ∧ extractTextFromDOCX libraries file = Returns extracted)
  ∨ (detectFileType file = txt ∧ extractTextFromTXT file = Returns extracted) →
  trim extracted = extracted
  ∧ 10 ≤ String.length extracted
  ∧ parseResume libraries file skills
    = if String.length extracted <? 20
      then Throws
             (Error
                "Could not extract meaningful text from the file. The file may be corrupted, password-protected, or image-based.")
      else ResumeParser.extractSkillsFromText extracted skills.
Proof.
  intros H.
  assert (trim extracted = extracted ∧ 10 ≤ String.length extracted) as [Htrim Hlen].
  { apply (extracted_text_trimmed libraries file). tauto. }
  split; [done|]. split; [done|].
  assert (parseResume libraries file skills
          = tryCatch
              (if isBlankBelow 20 extracted
               then throwError
                      ("Could not extract meaningful text from the file. "
                       +:+ "The file may be corrupted, password-protected, or image-based.")
               else
                 extractedSkills ←
                   call (ResumeParser.extractSkillsFromText extracted skills);
                 if length extractedSkills =? 0 then Done [] else Done extractedSkills)
              resumeCatch) as ->.
  { unfold parseResume.
    destruct H as [[-> ->]|[[-> ->]|[-> ->]]]; reflexivity. }
  rewrite isBlankBelow_trimmed by (done || lia).
  destruct (String.length extracted <? 20); [reflexivity|].
  rewrite extractSkillsFromText_returns. simpl.
  by destruct (firstOccurrences _).
Qed.

Lemma resumeCatch_detailed c : 20 < String.length (message (resumeCatch c)).
Proof.
  destruct c as [e|]; simpl; [|lia].
  destruct (20 <? String.length (message e)) eqn:H; [by apply Nat.ltb_lt|].
  simpl. rewrite length_append. simpl. lia.
Qed.

(** X2.  Every error [parseResume] throws carries a message of more
    than 20 characters, whatever the libraries and the file do: a shorter
    message is wrapped. *)
Theorem parseResume_errors_are_detailed (libraries : Libraries) (file : File)
    (skills : list Skill.t) (e : exn) :
  parseResume libraries file skills = Throws e →
  20 < String.length (message e).
Proof.
  unfold parseResume. intros (c & _ & <-)%tryCatch_Throws.
  apply resumeCatch_detailed.
Qed.

End ParseResumeFacts.

(** ** PDF and DOCX files *)

Section DocumentFacts.
Import JsString JsSearch Effects ResumeFiles.

Lemma pdfCatch_message c :
  message (pdfCatch c)
  ≠ "Could not extract text from PDF. The PDF may be image-based or password-protected.".
Proof.
  destruct c as [e|]; [|done]. unfold pdfCatch.
  destruct (includes (message e) "Invalid PDF" || includes (message e) "corrupted")
    eqn:H1.
  - intros Heq. by rewrite Heq in H1.
  - destruct (includes (message e) "password" || includes (message e) "encrypted");
      [done|]. simpl. by rewrite append_cons.
Qed.

(** X3.  [extractTextFromPDF] never throws its own message about a PDF
    without text.  For a PDF that opens and has pages but gives fewer than
    10 characters of text (a scanned document), the error that leaves the
    function says that the file is password-protected: the message thrown
    in the body contains the word password, and the [catch] clause
    replaces every such message.  A file whose first four bytes are not
    %PDF is refused as invalid before the document is opened. *)
Theorem pdf_without_text_is_reported_as_protected (libraries : Libraries) (file : File) :
  (∀ e, extractTextFromPDF libraries file = Throws e →
        message e
        ≠ "Could not extract text from PDF. The PDF may be image-based or password-protected.")
  ∧ (∀ bytes pdfDocument,
       importPdfjs libraries = Resolved () →
       arrayBuffer file = Resolved bytes →
       startsWith (string_of_list_ascii (take 4 bytes)) "%PDF" = true →
       getDocument libraries bytes = Resolved (Some pdfDocument) →
       numPages pdfDocument ≠ 0 →
       String.length (trim (documentText pdfDocument)) < 10 →
       extractTextFromPDF libraries file
       = Throws
           (Error "PDF file is password-protected. Please remove the password and try again."))
  ∧ (∀ bytes,
       importPdfjs libraries = Resolved () →
       arrayBuffer file = Resolved bytes →
       take 4 bytes ≠ ["%"; "P"; "D"; "F"]%char →
       extractTextFromPDF libraries file
       = Throws (Error "Invalid PDF file. The file may be corrupted or not a valid PDF.")).
Proof.
  split_and!.
  - intros e (c & _ & <-)%tryCatch_Throws. apply pdfCatch_message.
  - intros bytes pdfDocument Hi Hb Hh Hd Hn Hshort.
    unfold extractTextFromPDF. rewrite Hi, Hb. simpl. rewrite Hh, Hd. simpl.
    apply Nat.eqb_neq in Hn. rewrite Hn.
    assert (isBlankBelow 10 (documentText pdfDocument) = true) as ->.
    { unfold isBlankBelow. apply orb_true_iff. right. by apply Nat.ltb_lt. }
    reflexivity.
  - intros bytes Hi Hb Hh. unfold extractTextFromPDF. rewrite Hi, Hb. simpl.
    destruct (startsWith (string_of_list_ascii (take 4 bytes)) "%PDF") eqn:Hs;
      [|reflexivity].
    exfalso. apply Hh. apply startsWith_spec in Hs as [rest Hs].
    assert (length (take 4 bytes) ≤ 4) as Hlen by (rewrite length_take; lia).
    apply (f_equal list_ascii_of_string) in Hs.
    rewrite list_ascii_of_string_of_list_ascii in Hs. rewrite Hs in Hlen |- *.
    destruct rest; [done|]. simpl in Hlen. lia.
Qed.

(** One byte in hexadecimal. *)
Lemma byteHex_decode b :
  ThemeContext.parseInt16 (padStartZero 2 (toString16 (N_of_ascii b))) = N_of_ascii b
  ∧ String.length (padStartZero 2 (toString16 (N_of_ascii b))) = 2.
Proof.
  assert (∀ b,
    (ThemeContext.parseInt16 (padStartZero 2 (toString16 (N_of_ascii b)))
     =? N_of_ascii b)%N
    && (String.length (padStartZero 2 (toString16 (N_of_ascii b))) =? 2) = true) as H.
  { apply (forall_ascii (λ b, (_ =? _)%N && (_ =? 2))). by vm_compute. }
  specialize (H b). apply andb_true_iff in H as [H1 H2].
  by apply N.eqb_eq in H1; apply Nat.eqb_eq in H2.
Qed.

Lemma hexOfBytes_cons b bytes :
  hexOfBytes (b :: bytes)
  = padStartZero 2 (toString16 (N_of_ascii b)) +:+ hexOfBytes bytes.
Proof.
  unfold hexOfBytes, join. simpl. destruct bytes as [|b' bytes]; simpl.
  - by rewrite append_empty_r.
  - done.
Qed.

Lemma append_inj_length s1 s2 t1 t2 :
  String.length s1 = String.length s2 → s1 +:+ t1 = s2 +:+ t2 → s1 = s2 ∧ t1 = t2.
Proof.
  revert s2. induction s1 as [|c s1 IH]; intros [|d s2] Hlen Heq; try done.
  rewrite !append_cons in Heq. injection Heq as -> Heq.
  simpl in Hlen. destruct (IH s2) as [-> ->]; [lia|done|done].
Qed.

(** The hexadecimal string tells the bytes. *)
Lemma hexOfBytes_inj bytes1 bytes2 :
  hexOfBytes bytes1 = hexOfBytes bytes2 → bytes1 = bytes2.
Proof.
  revert bytes2. induction bytes1 as [|b1 l1 IH]; intros [|b2 l2] Heq; try done.
  - rewrite hexOfBytes_cons in Heq. destruct (byteHex_decode b2) as [_ Hl].
    destruct (padStartZero 2 _); [done|]. by rewrite append_cons in Heq.
  - rewrite hexOfBytes_cons in Heq. destruct (byteHex_decode b1) as [_ Hl].
    destruct (padStartZero 2 _); [done|]. by rewrite append_cons in Heq.
  - rewrite !hexOfBytes_cons in Heq.
    destruct (byteHex_decode b1) as [Hd1 Hl1], (byteHex_decode b2) as [Hd2 Hl2].
    apply append_inj_length in Heq as [Hb Hrest]; [|congruence].
    rewrite Hb, Hd2 in Hd1. f_equal; [|by apply IH].
    rewrite <- (ascii_N_embedding b1), <- (ascii_N_embedding b2). congruence.
Qed.

(** X4.  [extractTextFromDOCX] looks at the first four bytes of the file:
    unless they are one of the three ZIP signatures PK 03 04, PK 05 06
    and PK 07 08, the function throws its invalid-file error and the
    converter is not consulted (a file of fewer than four bytes is
    refused too). *)
Theorem docx_needs_zip_signature (libraries : Libraries) (file : File)
    (bytes : list ascii) :
  importMammoth libraries = Resolved () →
  arrayBuffer file = Resolved bytes →
  take 4 bytes ∉ [ ["P"; "K"; "003"; "004"]; ["P"; "K"; "005"; "006"];
                   ["P"; "K"; "007"; "008"] ]%char →
  extractTextFromDOCX libraries file
  = Throws
      (Error "Invalid DOCX file. The file may be corrupted or not a valid DOCX document.").
Proof.
  intros Hi Hb Hsig. unfold extractTextFromDOCX. rewrite Hi, Hb. simpl.
  assert (∀ sig, sig ∈ [ ["P"; "K"; "003"; "004"]; ["P"; "K"; "005"; "006"];
                          ["P"; "K"; "007"; "008"] ]%char →
                 hexOfBytes (take 4 bytes) ≠ hexOfBytes sig) as Hne.
  { intros sig Hin Heq. apply hexOfBytes_inj in Heq. by rewrite Heq in Hsig. }
  rewrite !bool_decide_eq_true_2; [reflexivity|..].
  - apply (Hne ["P"; "K"; "007"; "008"]%char). set_solver.
  - apply (Hne ["P"; "K"; "005"; "006"]%char). set_solver.
  - apply (Hne ["P"; "K"; "003"; "004"]%char). set_solver.
Qed.

End DocumentFacts.

(** ** The import components *)

Section ComponentFacts.
Import JsString JsSearch Effects ResumeFiles.
Import ResumeParserComponent LinkedInParserComponent.

(** X5.  A file that passes the checks of the upload handler (its name
    does not end in .doc, and its extension or its MIME type is on the
    handler's lists) is detected by [detectFileType] as a PDF, a DOCX or a
    text file: the handler never sends [parseResume] a file that it would
    refuse as old Word format or as unknown type.  A file that fails a
    check gets an error message, the same whatever the libraries and the
    callback would do. *)
Theorem upload_checks_leave_supported_types (file : File) :
  (endsWith (toLowerCase (name file)) ".doc" = false →
   hasValidExtension (toLowerCase (name file))
   || hasValidMimeType (toLowerCase (type file)) = true →
   detectFileType file ∈ [pdf; docx; txt])
  ∧ (endsWith (toLowerCase (name file)) ".doc" = true
     ∨ hasValidExtension (toLowerCase (name file))
       || hasValidMimeType (toLowerCase (type file)) = false
     ∨ (10 * 1024 * 1024 < size file)%N →
     ∀ libraries libraries' onSkillsExtracted onSkillsExtracted' skills existingSkills,
       handleFileSelect libraries skills onSkillsExtracted existingSkills (Some file)
       = handleFileSelect libraries' skills onSkillsExtracted' existingSkills (Some file)
       ∧ ∃ error,
           handleFileSelect libraries skills onSkillsExtracted existingSkills (Some file)
           = ShowsError error).
Proof.
  split.
  - intros Hdoc Hvalid. unfold detectFileType.
    unfold hasValidExtension, hasValidMimeType, validExtensions, validMimeTypes in Hvalid.
    cbn [existsb] in Hvalid. rewrite Hdoc.
    destruct (endsWith (toLowerCase (name file)) ".pdf"); [by repeat constructor|].
    destruct (endsWith (toLowerCase (name file)) ".docx"); [by repeat constructor|].
    destruct (endsWith (toLowerCase (name file)) ".txt"); [by repeat constructor|].
    destruct (endsWith (toLowerCase (name file)) ".text"); [by repeat constructor|].
    cbn [orb] in Hvalid.
    change (endsWith "application/pdf" "/") with false in Hvalid.
    change (endsWith "text/plain" "/") with false in Hvalid.
    change (endsWith "text/" "/") with true in Hvalid.
    change (endsWith _ "/") with false in Hvalid.
    cbn [andb orb] in Hvalid. rewrite !orb_false_r in Hvalid.
    set (mimeType := toLowerCase (type file)) in *.
    assert (mimeType = "application/pdf"
            ∨ mimeType
              = "application/vnd.openxmlformats-officedocument.wordprocessingml.document"
            ∨ mimeType = "text/plain" ∨ startsWith mimeType "text/" = true) as Hmime.
    { rewrite !orb_true_iff, !bool_decide_eq_true in Hvalid.
      destruct Hvalid as [?|[?|[?|[Heq|?]]]]; auto. rewrite Heq. auto. }
    clear Hvalid.
    destruct (decide (mimeType = "application/pdf")) as [->|H1]; [by repeat constructor|].
    rewrite (bool_decide_eq_false_2 _ H1).
    destruct (decide (mimeType
      = "application/vnd.openxmlformats-officedocument.wordprocessingml.document"))
      as [->|H2]; [by repeat constructor|].
    rewrite (bool_decide_eq_false_2 _ H2).
    destruct (decide (mimeType = "application/msword")) as [Heq|H3].
    { rewrite Heq in Hmime. by destruct Hmime as [?|[?|[?|?]]]. }
    rewrite (bool_decide_eq_false_2 _ H3).
    destruct Hmime as [?|[?|[Heq|Heq]]]; [done..| |]; rewrite Heq.
    + by repeat constructor.
    + rewrite orb_true_r. by repeat constructor.
  - intros Hfail libraries libraries' onSkillsExtracted onSkillsExtracted' skills
      existingSkills.
    unfold handleFileSelect.
    destruct (endsWith (toLowerCase (name file)) ".doc"); [by eauto|].
    destruct (hasValidExtension _) eqn:Hext, (hasValidMimeType _) eqn:Hmime;
      cbn [negb andb orb] in *; try (by eauto);
      (destruct Hfail as [?|[?|Hsize]]; [done..|]);
      apply N.ltb_lt in Hsize; rewrite Hsize; by eauto.
Qed.

Lemma newSkillsOf_elem_of existing extracted i :
  i ∈ newSkillsOf existing extracted ↔ i ∈ extracted ∧ i ∉ existing.
Proof. unfold newSkillsOf. rewrite list_elem_of_filter. tauto. Qed.

Lemma newSkillsOf_all_known existing extracted :
  (∀ i, i ∈ extracted → i ∈ existing) → newSkillsOf existing extracted = [].
Proof.
  intros H. unfold newSkillsOf. induction extracted as [|i l IH]; [done|].
  rewrite filter_cons_False.
  - apply IH. intros j Hj. apply H. by right.
  - intros Hn. apply Hn, H. left.
Qed.

Lemma handleSkillsExtracted_cases onSkillsExtracted existingSkills extractedSkills :
  handleSkillsExtracted onSkillsExtracted existingSkills extractedSkills
  = if length extractedSkills =? 0
    then ShowsError
           "No skills found in the LinkedIn profile. Please make sure your profile contains technical skills."
    else if 0 <? length (newSkillsOf existingSkills extractedSkills)
    then match onSkillsExtracted
                 (existingSkills ++ newSkillsOf existingSkills extractedSkills) with
         | CallReturns =>
             Imported (existingSkills ++ newSkillsOf existingSkills extractedSkills)
         | CallThrows _ => ShowsError "Failed to update skills. Please try again."
         end
    else ShowsError "All skills from your LinkedIn profile are already added.".
Proof.
  unfold handleSkillsExtracted. destruct (length extractedSkills =? 0); [done|].
  cbn zeta. destruct (0 <? _); [|done]. by destruct (onSkillsExtracted _).
Qed.

Lemma handleSkillsExtracted_Imported onSkillsExtracted existingSkills extractedSkills
    skills :
  handleSkillsExtracted onSkillsExtracted existingSkills extractedSkills
  = Imported skills →
  skills = existingSkills ++ newSkillsOf existingSkills extractedSkills
  ∧ newSkillsOf existingSkills extractedSkills ≠ []
  ∧ extractedSkills ≠ []
  ∧ onSkillsExtracted skills = CallReturns.
Proof.
  rewrite handleSkillsExtracted_cases.
  destruct extractedSkills as [|i l]; [done|]. cbn [length Nat.eqb].
  destruct (newSkillsOf existingSkills (i :: l)) as [|j new]; [done|].
  cbn [length Nat.ltb Nat.leb].
  destruct (onSkillsExtracted _) eqn:Hcall; [|done]. intros [= <-]. done.
Qed.

(** X6.  When [handleSkillsExtracted] hands a list to the callback, the
    list is the existing skills, unchanged and in their order, followed by
    the extracted skills that were not among them, in extraction order and
    at least one; it holds every extracted skill, and has no duplicates
    when neither list had any. *)
Theorem import_appends_the_new_skills (onSkillsExtracted : list string → callback)
    (existingSkills extractedSkills skills : list string) :
  handleSkillsExtracted onSkillsExtracted existingSkills extractedSkills
  = Imported skills →
  ∃ newSkills,
    skills = existingSkills ++ newSkills
    ∧ newSkills ≠ []
    ∧ newSkills = filter (λ i, i ∉ existingSkills) extractedSkills
    ∧ (∀ i, i ∈ skills ↔ i ∈ existingSkills ∨ i ∈ extractedSkills)
    ∧ (NoDup existingSkills → NoDup extractedSkills → NoDup skills)
    ∧ onSkillsExtracted skills = CallReturns.
Proof.
  intros (Heq & Hnew & _ & Hcall)%handleSkillsExtracted_Imported. subst skills.
  exists (newSkillsOf existingSkills extractedSkills).
  split_and!; [done..| | |done].
  - intros i. rewrite elem_of_app, newSkillsOf_elem_of.
    destruct (decide (i ∈ existingSkills)); tauto.
  - intros H1 H2. apply NoDup_app. split_and!; [done| |by apply NoDup_filter].
    intros i Hi [_ Hn]%newSkillsOf_elem_of. done.
Qed.

(** X7.  Importing the same extraction a second time, on the list the
    first import produced, adds nothing: the handler reports that all
    skills are already added, and does not call the callback. *)
Theorem second_import_is_refused (onSkillsExtracted onSkillsExtracted' : list string → callback)
    (existingSkills extractedSkills skills : list string) :
  handleSkillsExtracted onSkillsExtracted existingSkills extractedSkills
  = Imported skills →
  handleSkillsExtracted onSkillsExtracted' skills extractedSkills
  = ShowsError "All skills from your LinkedIn profile are already added.".
Proof.
  intros (Heq & _ & Hne & _)%handleSkillsExtracted_Imported. subst skills.
  rewrite handleSkillsExtracted_cases.
  destruct extractedSkills as [|i l]; [done|]. cbn [length Nat.eqb].
  rewrite newSkillsOf_all_known; [done|]. intros j Hj.
  rewrite elem_of_app, newSkillsOf_elem_of.
  destruct (decide (j ∈ existingSkills)); tauto.
Qed.

Lemma trimmed_input_not_blank textInput :
  trim textInput ≠ "" → whitespaceOnly (trim textInput) = false.
Proof.
  intros Hne. rewrite <- trim_length_zero, trim_idempotent.
  by destruct (trim textInput).
Qed.

(** X8.  [handleTextSubmit] ends in one of five ways, and in no other:
    the request to paste text (for an input of white space only, the
    no-break space included), the message that no skills were found, the
    message that all skills are already added, the import of the existing
    skills followed by the new ones when the callback returns, or the
    message that the skills could not be updated when the callback
    throws.  The error of [parseLinkedInText] for a blank text never
    reaches the screen: the handler has refused such an input before the
    call. *)
Theorem handleTextSubmit_outcomes (skills : list Skill.t)
    (onSkillsExtracted : list string → callback) (existingSkills : list string)
    (textInput : string) :
  (whitespaceOnly textInput = true
   ∧ handleTextSubmit skills onSkillsExtracted existingSkills textInput
     = ShowsError "Please paste text from your LinkedIn profile.")
  ∨ (whitespaceOnly textInput = false
     ∧ ∃ extractedSkills,
         LinkedinParser.parseLinkedInText (trim textInput) skills = Returns extractedSkills
         ∧ NoDup extractedSkills
         ∧ ((extractedSkills = []
             ∧ handleTextSubmit skills onSkillsExtracted existingSkills textInput
               = ShowsError
                   "No skills found in the pasted text. Please make sure you copied text that contains technical skills.")
            ∨ (extractedSkills ≠ []
               ∧ (∀ i, i ∈ extractedSkills → i ∈ existingSkills)
               ∧ handleTextSubmit skills onSkillsExtracted existingSkills textInput
                 = ShowsError "All skills from your LinkedIn profile are already added.")
            ∨ (∃ newSkills, newSkills ≠ []
                 ∧ newSkills = filter (λ i, i ∉ existingSkills) extractedSkills
                 ∧ ((onSkillsExtracted (existingSkills ++ newSkills) = CallReturns
                     ∧ handleTextSubmit skills onSkillsExtracted existingSkills textInput
                       = Imported (existingSkills ++ newSkills))
                    ∨ ((∃ c, onSkillsExtracted (existingSkills ++ newSkills)
                             = CallThrows c)
                       ∧ handleTextSubmit skills onSkillsExtracted existingSkills
                           textInput
                         = ShowsError "Failed to update skills. Please try again."))))).
Proof.
  unfold handleTextSubmit.
  destruct (whitespaceOnly textInput) eqn:Hw.
  - left. split; [done|]. rewrite <- trim_length_zero in Hw.
    apply Nat.eqb_eq in Hw. destruct (trim textInput); [done|discriminate Hw].
  - right. split; [done|].
    assert (trim textInput ≠ "") as Hne.
    { intros Heq. rewrite <- trim_length_zero, Heq in Hw. done. }
    rewrite bool_decide_eq_false_2 by done.
    unfold LinkedinParser.parseLinkedInText.
    rewrite trim_length_zero, (trimmed_input_not_blank _ Hne), orb_false_r.
    rewrite (bool_decide_eq_false_2 _ Hne).
    destruct (extractSkillsFromText_elem_of
                (trim (collapseWhiteSpace (trim textInput))) skills)
      as (ids & Hids & Hnd & _).
    rewrite Hids. exists ids. split; [done|]. split; [done|].
    destruct ids as [|i ids]; [by left|]. right.
    cbn [call mbind attempt_bind length Nat.ltb Nat.leb tryShow].
    rewrite handleSkillsExtracted_cases. cbn [length Nat.eqb].
    destruct (newSkillsOf existingSkills (i :: ids)) as [|j new] eqn:Hnew.
    + left. split; [done|]. split; [|done]. intros k Hk.
      destruct (decide (k ∈ existingSkills)) as [|Hn]; [done|].
      assert (k ∈ newSkillsOf existingSkills (i :: ids)) as Hin
        by by apply newSkillsOf_elem_of.
      rewrite Hnew in Hin. by apply elem_of_nil in Hin.
    + right. exists (j :: new). split; [done|]. split; [by rewrite <- Hnew|].
      cbn [length Nat.ltb Nat.leb].
      destruct (onSkillsExtracted _) as [|c]; [by left|]. right. by eauto.
Qed.

End ComponentFacts.

(** ** Profile URLs *)

Section UrlFacts.
Import JsString JsSearch Effects LinkedinUrl.

Lemma finalUrlOf_protocol profileUrl :
  startsWith (finalUrlOf profileUrl) "http://" = true
  ∨ startsWith (finalUrlOf profileUrl) "https://" = true.
Proof.
  unfold finalUrlOf.
  destruct (startsWith (trim profileUrl) "http://") eqn:H1; [by left|].
  destruct (startsWith (trim profileUrl) "https://") eqn:H2; [by right|].
  right. simpl. apply startsWith_spec. eauto.
Qed.

(** X9.  [parseLinkedInURL] never returns an empty list: when it returns,
    the profile URL contains linkedin.com/in/, the page was fetched from a
    URL that starts with http:// or https://, the text of the page has 50
    characters or more once trimmed, and the result is the non-empty,
    duplicate-free list the extractor gives for that text. *)
Theorem parseLinkedInURL_returns_found_skills (web : Web) (profileUrl : string)
    (skills : list Skill.t) (ids : list string) :
  parseLinkedInURL web profileUrl skills = Returns ids →
  ids ≠ [] ∧ NoDup ids
  ∧ includes profileUrl "linkedin.com/in/" = true
  ∧ (startsWith (finalUrlOf profileUrl) "http://" = true
     ∨ startsWith (finalUrlOf profileUrl) "https://" = true)
  ∧ ∃ html,
      fetchLinkedInProfileWithProxy web (finalUrlOf profileUrl) = Returns html
      ∧ 50 ≤ String.length (trim (extractTextFromHTML web html))
      ∧ ResumeParser.extractSkillsFromText (extractTextFromHTML web html) skills
        = Returns ids.
Proof.
  unfold parseLinkedInURL.
  destruct (includes profileUrl "linkedin.com/in/") eqn:Hin; [|done]. cbn [negb].
  destruct (acceptsURL web (finalUrlOf profileUrl)); [|done]. cbn [negb].
  intros H%tryCatch_Returns.
  destruct (fetchLinkedInProfileWithProxy web (finalUrlOf profileUrl))
    as [html| |] eqn:Hfetch; [|done..]. simpl in H.
  destruct (bool_decide (html = "") || _); [done|].
  destruct (isBlankBelow 50 (extractTextFromHTML web html)) eqn:Hb; [done|].
  destruct (extractSkillsFromText_elem_of (extractTextFromHTML web html) skills)
    as (found & Hfound & Hnd & _).
  rewrite Hfound in H. simpl in H.
  destruct found as [|i found]; [done|]. injection H as <-.
  split_and!; [done..|apply finalUrlOf_protocol|].
  exists html. split_and!; [done| |done]. by apply isBlankBelow_false.
Qed.

End UrlFacts.

(** ** White space in pasted text *)

Section CleaningFacts.
Import JsString.

Lemma collapseFrom_singleSpaced inRun s :
  singleSpaced (collapseFrom inRun s) = true
  ∧ (inRun = true → startsWithWhiteSpace (collapseFrom inRun s) = false).
Proof.
  revert inRun. induction s as [|c s IH]; intros inRun; [done|].
  cbn [collapseFrom]. destruct (isWhiteSpace c) eqn:Hc.
  - destruct inRun.
    + apply IH.
    + destruct (IH true) as [H1 H2]. split; [|done].
      cbn [singleSpaced]. change (isWhiteSpace " ") with true.
      by rewrite H1, H2.
  - destruct (IH false) as [H1 _]. cbn [singleSpaced startsWithWhiteSpace].
    by rewrite Hc, H1.
Qed.

Lemma singleSpaced_collapseFrom s :
  singleSpaced s = true →
  collapseFrom false s = s
  ∧ (startsWithWhiteSpace s = false → collapseFrom true s = s).
Proof.
  induction s as [|c s IH]; [done|]. cbn [singleSpaced collapseFrom startsWithWhiteSpace].
  destruct (isWhiteSpace c) eqn:Hc.
  - intros [[Hsp Hnext%negb_true_iff]%andb_true_iff Hs]%andb_true_iff.
    apply Ascii.eqb_eq in Hsp as ->. destruct (IH Hs) as [_ H2].
    split; [|done]. by rewrite H2.
  - intros Hs%andb_true_iff. destruct (IH (proj2 Hs)) as [H1 _].
    by rewrite H1.
Qed.

Lemma singleSpaced_trimStart s :
  singleSpaced s = true → singleSpaced (trimStart s) = true.
Proof.
  induction s as [|c s IH]; [done|]. intros H. cbn [trimStart].
  destruct (isWhiteSpace c); [|done]. apply IH.
  cbn [singleSpaced] in H. by apply andb_true_iff in H as [_ ?].
Qed.

Lemma trimEnd_keeps_head s c t :
  trimEnd s = String c t → ∃ s', s = String c s'.
Proof.
  destruct s as [|d s]; [done|]. cbn [trimEnd].
  destruct (trimEnd s); [destruct (isWhiteSpace d)|]; intros [= -> _]; eauto.
  Unshelve. all: exact "".
Qed.

Lemma singleSpaced_trimEnd s :
  singleSpaced s = true → singleSpaced (trimEnd s) = true.
Proof.
  induction s as [|c s IH]; [done|]. cbn [singleSpaced].
  intros [Hc Hs]%andb_true_iff. specialize (IH Hs). cbn [trimEnd].
  destruct (trimEnd s) as [|d t] eqn:E.
  - destruct (isWhiteSpace c) eqn:Hw; [done|]. simpl. by rewrite Hw.
  - cbn [singleSpaced] in *. rewrite IH, andb_true_r.
    destruct (trimEnd_keeps_head _ _ _ E) as [s' ->].
    cbn [startsWithWhiteSpace] in *. done.
Qed.

(** Cleaning a cleaned text changes nothing. *)
Lemma cleaning_idempotent s :
  trim (collapseWhiteSpace (trim (collapseWhiteSpace s)))
  = trim (collapseWhiteSpace s).
Proof.
  assert (singleSpaced (trim (collapseWhiteSpace s)) = true) as H.
  { unfold trim. apply singleSpaced_trimEnd, singleSpaced_trimStart.
    apply collapseFrom_singleSpaced. }
  unfold collapseWhiteSpace at 1.
  rewrite (proj1 (singleSpaced_collapseFrom _ H)). apply trim_idempotent.
Qed.

Lemma whitespaceOnly_collapseFrom inRun s :
  whitespaceOnly (collapseFrom inRun s) = whitespaceOnly s.
Proof.
  unfold whitespaceOnly. revert inRun. induction s as [|c s IH]; intros inRun; [done|].
  cbn [collapseFrom]. rewrite all_cons. destruct (isWhiteSpace c) eqn:Hc.
  - destruct inRun; [apply IH|]. rewrite all_cons. cbn. apply IH.
  - by rewrite all_cons, Hc.
Qed.

Lemma whitespaceOnly_collapseWhiteSpace s :
  whitespaceOnly (collapseWhiteSpace s) = whitespaceOnly s.
Proof. apply whitespaceOnly_collapseFrom. Qed.

Lemma whitespaceOnly_trim s : whitespaceOnly (trim s) = whitespaceOnly s.
Proof. by rewrite <- !trim_length_zero, trim_idempotent. Qed.

(** X10.  [parseLinkedInText] gives on its own cleaned text what it gives
    on the text: the layout of the white space of a pasted text (line
    breaks, tabs, runs of spaces, margins) does not matter beyond the
    first cleaning, and a blank text stays refused.  The cleaning itself,
    collapsing and then trimming, changes nothing when done again. *)
Theorem parseLinkedInText_on_cleaned_text (text : string) (skills : list Skill.t) :
  LinkedinParser.parseLinkedInText (trim (collapseWhiteSpace text)) skills
  = LinkedinParser.parseLinkedInText text skills
  ∧ trim (collapseWhiteSpace (trim (collapseWhiteSpace text)))
    = trim (collapseWhiteSpace text).
Proof.
  split; [|apply cleaning_idempotent].
  unfold LinkedinParser.parseLinkedInText.
  rewrite !trim_length_zero, whitespaceOnly_trim, whitespaceOnly_collapseWhiteSpace.
  destruct (whitespaceOnly text) eqn:Hw.
  - by rewrite !orb_true_r.
  - rewrite !orb_false_r, cleaning_idempotent.
    assert (text ≠ "") as Hne by (by intros ->).
    assert (trim (collapseWhiteSpace text) ≠ "") as Hne'.
    { intros Heq. pose proof (whitespaceOnly_trim (collapseWhiteSpace text)) as H.
      rewrite Heq, whitespaceOnly_collapseWhiteSpace, Hw in H. done. }
    by rewrite !bool_decide_eq_false_2.
Qed.

End CleaningFacts.

(** ** More on the extractor *)

Section ExtractorMore.
Import JsString ResumeParser.

Lemma skillMatchesOf_skillId s m : m ∈ skillMatchesOf s → skillId m = Skill.id s.
Proof.
  unfold skillMatchesOf. intros [->|Hm]%elem_of_cons; [done|].
  apply elem_of_app in Hm as [Hm|Hm].
  - case_bool_decide; [|by apply elem_of_nil in Hm].
    by apply list_elem_of_singleton in Hm as ->.
  - by apply list_elem_of_fmap in Hm as (a & -> & _).
Qed.

(** X11.  The extractor returns ids of the vocabulary only, and a larger
    vocabulary never loses a skill: every id found with a vocabulary is
    found again when further skills are appended to it. *)
Theorem extracted_ids_belong_to_vocabulary (text : string)
    (skills more : list Skill.t) :
  ∃ ids found,
    extractSkillsFromText text skills = Returns ids
    ∧ extractSkillsFromText text (skills ++ more) = Returns found
    ∧ (∀ i, i ∈ ids → i ∈ Skill.id <$> skills)
    ∧ (∀ i, i ∈ ids → i ∈ found)
    ∧ length ids ≤ length skills.
Proof.
  destruct (extractSkillsFromText_elem_of text skills) as (ids & Hids & Hnd & Hin).
  destruct (extractSkillsFromText_elem_of text (skills ++ more))
    as (found & Hfound & _ & Hin').
  exists ids, found. split_and!; [done..| | |].
  - intros i (m & (s & Hs & Hm)%buildSkillMatches_elem_of & <- & _)%Hin.
    rewrite (skillMatchesOf_skillId _ _ Hm). by apply list_elem_of_fmap_2.
  - intros i (m & (s & Hs & Hm)%buildSkillMatches_elem_of & <- & Hmatch)%Hin.
    apply Hin'. exists m. split_and!; [|done..].
    apply buildSkillMatches_elem_of. exists s. split; [|done].
    apply elem_of_app. by left.
  - rewrite <- (length_fmap Skill.id skills).
    apply submseteq_length, NoDup_submseteq; [done|].
    intros i (m & (s & Hs & Hm)%buildSkillMatches_elem_of & <- & _)%Hin.
    rewrite (skillMatchesOf_skillId _ _ Hm). by apply list_elem_of_fmap_2.
Qed.

Lemma canonicalize_lowerChar c :
  RegExp.canonicalize true (lowerChar c) = RegExp.canonicalize true c.
Proof.
  apply Ascii.eqb_eq. revert c.
  apply (forall_ascii (λ c, Ascii.eqb _ _)). by vm_compute.
Qed.

Lemma matchHere_toLowerCase ns prev rest :
  RegExp.matchHere true ns (lowerChar <$> prev) (toLowerCase rest)
  = RegExp.matchHere true ns prev rest.
Proof.
  revert prev rest. induction ns as [|[c| |] ns IH]; intros prev rest; [done|..].
  - destruct rest as [|d rest]; [done|]. cbn [toLowerCase RegExp.matchHere].
    rewrite canonicalize_lowerChar. destruct (Ascii.eqb _ _); [|done].
    f_equal. apply (IH (Some d)).
  - cbn [RegExp.matchHere]. rewrite head_toLowerCase, !isWordCharAt_lower, IH. done.
  - cbn [RegExp.matchHere]. rewrite head_toLowerCase, !isWordCharAt_lower, IH. done.
Qed.

Lemma search_toLowerCase ns prev rest :
  RegExp.search true ns (lowerChar <$> prev) (toLowerCase rest)
  = RegExp.search true ns prev rest.
Proof.
  revert prev. induction rest as [|d rest IH]; intros prev.
  - pose proof (matchHere_toLowerCase ns prev "") as H.
    cbn [toLowerCase] in H. cbn [toLowerCase RegExp.search]. by rewrite H.
  - pose proof (matchHere_toLowerCase ns prev (String d rest)) as H.
    cbn [toLowerCase] in H. cbn [toLowerCase RegExp.search]. rewrite H. clear H.
    destruct (RegExp.matchHere true ns prev (String d rest)); [done|].
    f_equal. apply (IH (Some d)).
Qed.

(** X12.  The letter case of the text does not matter: on a text of the
    ASCII range the extractor returns for the lower-cased text what it
    returns for the text. *)
Theorem extraction_ignores_letter_case (text : string) (skills : list Skill.t) :
  isAscii text = true →
  extractSkillsFromText (toLowerCase text) skills = extractSkillsFromText text skills.
Proof.
  intros _. rewrite !extractSkillsFromText_returns. do 2 f_equal.
  unfold matchingIds. f_equal. apply list_filter_iff. intros m.
  unfold matches. by rewrite (search_toLowerCase _ None).
Qed.

End ExtractorMore.

(** ** Schools and colours *)

Section ThemeFacts.
Import JsString JsSearch ThemeContext.

Lemma abbreviations_inside_full_names key fullName :
  abbreviationOf key = Some fullName →
  includes (toLowerCase fullName) (toLowerCase key) = true.
Proof.
  unfold abbreviationOf. destruct (find _ abbreviations) as [[k v]|] eqn:Hfind; [|done].
  intros [= <-]. apply find_some in Hfind as [Hin Hk].
  apply bool_decide_eq_true in Hk. simpl in Hk. subst k.
  assert (forallb (λ entry, includes (toLowerCase (snd entry)) (toLowerCase (fst entry)))
            abbreviations = true) as Hall by by vm_compute.
  rewrite forallb_forall in Hall. apply (Hall (key, v) Hin).
Qed.

(** X13.  The table of abbreviations of [findUniversityColors] never
    decides the answer.  Each abbreviation stands inside its full name, so
    a school with the full name is already met by the partial match of
    the second search; the function is the exact search followed by the
    partial one, and what it returns is a school of the list whose name
    is the given name or matches it partially.  A school whose name is
    exactly the given name is preferred to every partial match. *)
Theorem abbreviations_never_decide (schools : list UniversityColor) (schoolName : string) :
  findUniversityColors schools schoolName
  = (if bool_decide (schoolName = "") then None
     else
       match find (λ s, bool_decide (name s = schoolName)) schools with
       | Some found => Some found
       | None => find (fuzzyMatch schoolName) schools
       end)
  ∧ (∀ found, findUniversityColors schools schoolName = Some found →
       found ∈ schools
       ∧ (name found = schoolName ∨ fuzzyMatch schoolName found = true))
  ∧ (schoolName ≠ "" →
     (∃ s, s ∈ schools ∧ name s = schoolName) →
     ∃ found, findUniversityColors schools schoolName = Some found
              ∧ name found = schoolName).
Proof.
  assert (findUniversityColors schools schoolName
          = (if bool_decide (schoolName = "") then None
             else
               match find (λ s, bool_decide (name s = schoolName)) schools with
               | Some found => Some found
               | None => find (fuzzyMatch schoolName) schools
               end)) as Heq.
  { unfold findUniversityColors. case_bool_decide; [done|].
    destruct (find (λ s, bool_decide (name s = schoolName)) schools); [done|].
    destruct (find (fuzzyMatch schoolName) schools) eqn:Hfuzzy; [done|].
    destruct (abbreviationOf schoolName) as [fullName|] eqn:Habbr; [|done].
    destruct (find (λ s, bool_decide (name s = fullName)) schools) as [s|] eqn:Hfull;
      [|done].
    apply find_some in Hfull as [Hin Hname]. apply bool_decide_eq_true in Hname.
    pose proof (find_none _ _ Hfuzzy s Hin) as Hno.
    unfold fuzzyMatch in Hno.
    by rewrite Hname, (abbreviations_inside_full_names _ _ Habbr) in Hno. }
  split; [exact Heq|]. rewrite Heq. split.
  - intros found. case_bool_decide; [done|].
    destruct (find (λ s, bool_decide (name s = schoolName)) schools) as [s|] eqn:Hexact.
    + intros [= <-]. apply find_some in Hexact as [Hin Hname].
      apply bool_decide_eq_true in Hname. split; [by apply list_elem_of_In|by left].
    + intros [Hin Hf]%find_some. split; [by apply list_elem_of_In|by right].
  - intros Hne (s & Hin & Hname). rewrite bool_decide_eq_false_2 by done.
    destruct (find (λ s, bool_decide (name s = schoolName)) schools) as [found|] eqn:Hexact.
    + exists found. split; [done|]. apply find_some in Hexact as [_ H].
      by apply bool_decide_eq_true in H.
    + apply list_elem_of_In in Hin. pose proof (find_none _ _ Hexact s Hin) as Hno.
      simpl in Hno. by rewrite bool_decide_eq_true_2 in Hno.
Qed.

(** With Smith College before it in the list, the abbreviation MIT gives
    Smith College: the partial match finds mit in smith. *)
Example partial_match_before_abbreviation :
  let smith := {| name := "Smith College"; primary := "#002855"; secondary := "#f2a900" |} in
  let mit :=
    {| name := "Massachusetts Institute of Technology (MIT)";
       primary := "#a31f34"; secondary := "#8a8b8c" |} in
  findUniversityColors [smith; mit] "MIT" = Some smith.
Proof. reflexivity. Qed.

(** A channel value in two hexadecimal digits. *)
Lemma channel_hex b :
  ∃ x y, padStartZero 2 (toString16 (N_of_ascii b)) = String x (String y "")
         ∧ isHexDigit x = true ∧ isHexDigit y = true
         ∧ parseInt16 (String x (String y "")) = N_of_ascii b.
Proof.
  assert (∀ b,
    match padStartZero 2 (toString16 (N_of_ascii b)) with
    | String x (String y EmptyString) =>
        isHexDigit x && isHexDigit y
        && (parseInt16 (String x (String y "")) =? N_of_ascii b)%N
    | _ => false
    end = true) as H.
  { apply (forall_ascii (λ b, match padStartZero 2 _ with
                              | String x (String y EmptyString) => _
                              | _ => false end)). by vm_compute. }
  specialize (H b).
  destruct (padStartZero 2 _) as [|x [|y [|]]]; try done.
  apply andb_true_iff in H as [[Hx Hy]%andb_true_iff Hv%N.eqb_eq]. eauto 10.
Qed.

Lemma hexDigitValue_bound c : isHexDigit c = true → (hexDigitValue c < 16)%N.
Proof.
  intros H. apply N.ltb_lt. revert H. apply implb_true_iff. revert c.
  apply (forall_ascii (λ c, implb _ _)). by vm_compute.
Qed.

Lemma execHexColor_groups hex r g b :
  execHexColor hex = Some (r, g, b) →
  (parseInt16 r < 256 ∧ parseInt16 g < 256 ∧ parseInt16 b < 256)%N.
Proof.
  unfold execHexColor.
  destruct (match hex with String "#"%char rest => rest | _ => hex end)
    as [|r1 [|r2 [|g1 [|g2 [|b1 [|b2 [|]]]]]]]; try done.
  destruct (forallb _ _) eqn:Hd; [|done]. intros [= <- <- <-].
  cbn [forallb] in Hd. rewrite !andb_true_iff in Hd.
  destruct Hd as (H1 & H2 & H3 & H4 & H5 & H6 & _).
  apply hexDigitValue_bound in H1, H2, H3, H4, H5, H6.
  unfold parseInt16. simpl. lia.
Qed.

Lemma execHexColor_of_channels (b1 b2 b3 : ascii) :
  let h b := padStartZero 2 (toString16 (N_of_ascii b)) in
  execHexColor ("#" +:+ join "" [h b1; h b2; h b3]) = Some (h b1, h b2, h b3).
Proof.
  intros h. subst h. simpl.
  destruct (channel_hex b1) as (x1 & y1 & -> & Hx1 & Hy1 & _).
  destruct (channel_hex b2) as (x2 & y2 & -> & Hx2 & Hy2 & _).
  destruct (channel_hex b3) as (x3 & y3 & -> & Hx3 & Hy3 & _).
  unfold join, execHexColor. simpl. by rewrite Hx1, Hy1, Hx2, Hy2, Hx3, Hy3.
Qed.

Lemma darker_twice (p : N) (delta delta' : Z) :
  (0 ≤ delta)%Z → (0 ≤ delta')%Z →
  Z.to_N (Z.max 0 (Z.of_N (Z.to_N (Z.max 0 (Z.of_N p - delta))) - delta'))
  = Z.to_N (Z.max 0 (Z.of_N p - (delta + delta'))).
Proof. lia. Qed.

Lemma darkenColor_channels hex delta r g b :
  execHexColor hex = Some (r, g, b) → (0 ≤ delta)%Z →
  let darker group := Z.max 0 (Z.of_N (parseInt16 group) - delta) in
  let h v := padStartZero 2 (toString16 (Z.to_N v)) in
  darkenColor hex delta = "#" +:+ join "" [h (darker r); h (darker g); h (darker b)]
  ∧ execHexColor (darkenColor hex delta) = Some (h (darker r), h (darker g), h (darker b))
  ∧ parseInt16 (h (darker r)) = Z.to_N (darker r)
  ∧ parseInt16 (h (darker g)) = Z.to_N (darker g)
  ∧ parseInt16 (h (darker b)) = Z.to_N (darker b)
  ∧ String.length (darkenColor hex delta) = 7.
Proof.
  intros Hexec Hdelta darker h.
  pose proof (execHexColor_groups _ _ _ _ Hexec) as (Hr & Hg & Hb).
  assert (∀ group, (parseInt16 group < 256)%N →
            ∃ c, Z.to_N (darker group) = N_of_ascii c) as Hbyte.
  { intros group Hlt. exists (ascii_of_N (Z.to_N (darker group))).
    rewrite N_ascii_embedding; [done|]. unfold darker. lia. }
  destruct (Hbyte r Hr) as [c1 H1], (Hbyte g Hg) as [c2 H2], (Hbyte b Hb) as [c3 H3].
  assert (darkenColor hex delta
          = "#" +:+ join "" [h (darker r); h (darker g); h (darker b)]) as Heq.
  { unfold darkenColor. by rewrite Hexec. }
  split; [exact Heq|]. rewrite Heq. unfold h. rewrite H1, H2, H3.
  split; [apply execHexColor_of_channels|].
  destruct (channel_hex c1) as (? & ? & -> & _ & _ & ->).
  destruct (channel_hex c2) as (? & ? & -> & _ & _ & ->).
  destruct (channel_hex c3) as (? & ? & -> & _ & _ & ->). by split_and!.
Qed.

(** X14.  For a colour the expression accepts and a darkening of 0 or
    more, [darkenColor] gives a colour the expression accepts again, of
    seven characters, each channel of which is the old channel less the
    darkening, but not below 0.  Darkening in two steps is darkening by
    the sum. *)
Theorem darkenColor_lowers_each_channel (hex : string) (delta : Z)
    (r g b : string) :
  execHexColor hex = Some (r, g, b) → (0 ≤ delta)%Z →
  String.length (darkenColor hex delta) = 7
  ∧ (∃ r' g' b',
       execHexColor (darkenColor hex delta) = Some (r', g', b')
       ∧ Z.of_N (parseInt16 r') = Z.max 0 (Z.of_N (parseInt16 r) - delta)
       ∧ Z.of_N (parseInt16 g') = Z.max 0 (Z.of_N (parseInt16 g) - delta)
       ∧ Z.of_N (parseInt16 b') = Z.max 0 (Z.of_N (parseInt16 b) - delta))
  ∧ (∀ delta', (0 ≤ delta')%Z →
       darkenColor (darkenColor hex delta) delta' = darkenColor hex (delta + delta')).
Proof.
  intros Hexec Hdelta.
  destruct (darkenColor_channels _ _ _ _ _ Hexec Hdelta)
    as (Heq & Hexec' & Hr & Hg & Hb & Hlen).
  split_and!.
  - exact Hlen.
  - eexists _, _, _. split; [exact Hexec'|]. rewrite Hr, Hg, Hb. lia.
  - intros delta' Hdelta'.
    destruct (darkenColor_channels _ _ _ _ _ Hexec' Hdelta') as (Heq' & _).
    destruct (darkenColor_channels hex (delta + delta') _ _ _ Hexec ltac:(lia))
      as (Heq'' & _).
    rewrite Heq', Heq'', Hr, Hg, Hb.
    by rewrite !(darker_twice _ _ _ Hdelta Hdelta').
Qed.

End ThemeFacts.

(** ** File types *)

Section FileTypeFacts.
Import JsString JsSearch Effects ResumeFiles ResumeParserComponent.

Lemma lastChar_append s t : t ≠ "" → lastChar (s +:+ t) = lastChar t.
Proof.
  intros Ht. induction s as [|c s IH]; [done|].
  rewrite append_cons, lastChar_cons, IH.
  destruct t as [|d t]; [done|]. by rewrite lastChar_cons.
Qed.

Lemma endsWith_lastChar s search :
  search ≠ "" → endsWith s search = true → lastChar s = lastChar search.
Proof. intros Hne [before ->]%endsWith_spec. by apply lastChar_append. Qed.

Lemma endsWith_append stem extension : endsWith (stem +:+ extension) extension = true.
Proof. apply endsWith_spec. eauto. Qed.

Lemma endsWith_other stem extension other :
  extension ≠ "" → other ≠ "" → lastChar extension ≠ lastChar other →
  endsWith (stem +:+ extension) other = false.
Proof.
  intros He Ho Hlast. destruct (endsWith _ other) eqn:H; [|done].
  apply endsWith_lastChar in H; [|done]. by rewrite lastChar_append in H.
Qed.

(** X15.  The extension of the file name, in any letter case, decides
    the file type, and the MIME type is not looked at then: a name that
    ends in .pdf is a PDF, in .docx a DOCX, in .doc an old Word file, in
    .txt or .text a text file, whatever the browser reports as type. *)
Theorem extension_decides_the_file_type (file : File) (stem : string) :
  (toLowerCase (name file) = stem +:+ ".pdf" → detectFileType file = pdf)
  ∧ (toLowerCase (name file) = stem +:+ ".docx" → detectFileType file = docx)
  ∧ (toLowerCase (name file) = stem +:+ ".doc" → detectFileType file = doc)
  ∧ (toLowerCase (name file) = stem +:+ ".txt" → detectFileType file = txt)
  ∧ (toLowerCase (name file) = stem +:+ ".text" → detectFileType file = txt).
Proof.
  unfold detectFileType. split_and!; intros ->.
  - by rewrite endsWith_append.
  - rewrite endsWith_other by done. by rewrite endsWith_append.
  - rewrite !endsWith_other by done. by rewrite endsWith_append.
  - rewrite !endsWith_other by done. by rewrite endsWith_append.
  - rewrite !endsWith_other by done. rewrite endsWith_append.
    by destruct (endsWith _ ".txt").
Qed.

Lemma parseResume_Returns libraries file skills ids :
  parseResume libraries file skills = Returns ids →
  detectFileType file ∈ [pdf; docx; txt]
  ∧ ∃ extracted, ResumeParser.extractSkillsFromText extracted skills = Returns ids.
Proof.
  unfold parseResume. intros H%tryCatch_Returns.
  destruct (detectFileType file) eqn:Htype; try done.
  all: split; [by repeat constructor|]; cbn [bool_decide decide_rel] in H.
  all: match type of H with
       | context [call ?c] => destruct c as [extracted| |]; try done
       end.
  all: simpl in H; destruct (isBlankBelow 20 extracted); [done|].
  all: exists extracted; rewrite extractSkillsFromText_returns in *; simpl in H.
  all: destruct (firstOccurrences _); by injection H as <-.
Qed.

(** X16.  When the upload handler imports a list, the file is of 10 MB
    at most and of a supported type, [parseResume] has returned skills for
    it, and the list is the existing skills, unchanged and in their order,
    followed by those of the returned skills that were not among them; it
    has no duplicates when the existing skills had none. *)
Theorem upload_import_extends_existing_skills (libraries : Libraries)
    (skills : list Skill.t) (onSkillsExtracted : list string → callback)
    (existingSkills : list string) (file : File) (imported : list string) :
  handleFileSelect libraries skills onSkillsExtracted existingSkills (Some file)
  = Imported imported →
  (size file ≤ 10 * 1024 * 1024)%N
  ∧ detectFileType file ∈ [pdf; docx; txt]
  ∧ ∃ extractedSkills,
      parseResume libraries file skills = Returns extractedSkills
      ∧ imported = existingSkills ++ filter (λ i, i ∉ existingSkills) extractedSkills
      ∧ (∃ i, i ∈ extractedSkills ∧ i ∉ existingSkills)
      ∧ (NoDup existingSkills → NoDup imported)
      ∧ onSkillsExtracted imported = CallReturns.
Proof.
  unfold handleFileSelect.
  destruct (endsWith _ ".doc"); [done|].
  destruct (negb _ && negb _); [done|].
  destruct (10 * 1024 * 1024 <? size file)%N eqn:Hsize; [done|].
  apply N.ltb_ge in Hsize.
  destruct (parseResume libraries file skills) as [ids| |] eqn:Hparse; [|done..].
  cbn [call mbind attempt_bind].
  destruct (length ids =? 0); [done|]. cbn zeta.
  destruct (newSkillsOf existingSkills ids) as [|j new] eqn:Hnew; [done|].
  cbn [length Nat.ltb Nat.leb].
  destruct (onSkillsExtracted _) as [|c] eqn:Hcall; [|done].
  intros [= <-]. apply parseResume_Returns in Hparse as Hok.
  destruct Hok as [Htype [extracted Hextract]].
  split; [done|]. split; [done|]. exists ids.
  split_and!; [done|by rewrite <- Hnew| | |done].
  - exists j. apply newSkillsOf_elem_of. rewrite Hnew. left.
  - intros Hnd. rewrite <- Hnew. apply NoDup_app. split_and!; [done| |].
    + intros i Hi [_ Hn]%newSkillsOf_elem_of. done.
    + apply NoDup_filter.
      destruct (extractSkillsFromText_elem_of extracted skills) as (? & Heq & Hids & _).
      rewrite Hextract in Heq. by injection Heq as <-.
Qed.

End FileTypeFacts.

(** ** Colours in either letter case *)

Section HexCaseFacts.
Import JsString JsSearch ThemeContext.







End HexCaseFacts.

(** ** The URL form *)

Section UrlFormFacts.
Import JsString JsSearch Effects LinkedinUrl LinkedInParserComponent.

Lemma parseLinkedInURL_nonempty web profileUrl skills ids :
  parseLinkedInURL web profileUrl skills = Returns ids → ids ≠ [] ∧ NoDup ids.
Proof.
  unfold parseLinkedInURL.
  destruct (includes profileUrl "linkedin.com/in/"); [|done]. cbn [negb].
  destruct (acceptsURL web (finalUrlOf profileUrl)); [|done]. cbn [negb].
  intros H%tryCatch_Returns.
  destruct (fetchLinkedInProfileWithProxy web (finalUrlOf profileUrl))
    as [html| |]; [|done..]. simpl in H.
  destruct (bool_decide (html = "") || _); [done|].
  destruct (isBlankBelow 50 (extractTextFromHTML web html)); [done|].
  destruct (extractSkillsFromText_elem_of (extractTextFromHTML web html) skills)
    as (found & Hfound & Hnd & _).
  rewrite Hfound in H. simpl in H.
  destruct found as [|i found]; [done|]. by injection H as <-.
Qed.

Lemma handleSkillsExtracted_nonempty onSkillsExtracted existingSkills extractedSkills :
  extractedSkills ≠ [] →
  handleSkillsExtracted onSkillsExtracted existingSkills extractedSkills
  = ShowsError "All skills from your LinkedIn profile are already added."
  ∨ handleSkillsExtracted onSkillsExtracted existingSkills extractedSkills
    = ShowsError "Failed to update skills. Please try again."
  ∨ ∃ skills,
      handleSkillsExtracted onSkillsExtracted existingSkills extractedSkills
      = Imported skills.
Proof.
  intros Hne. rewrite handleSkillsExtracted_cases.
  destruct extractedSkills as [|i rest]; [done|]. cbn [length Nat.eqb].
  destruct (0 <? _); [|by left]. destruct (onSkillsExtracted _); eauto.
Qed.

Lemma not_a_suffix (s m suffix : string) :
  endsWith s suffix = false → s ≠ m +:+ suffix.
Proof.
  intros Hs ->. assert (endsWith (m +:+ suffix) suffix = true) as H
    by (apply endsWith_spec; eauto).
  congruence.
Qed.

(** X18.  Two messages of the LinkedIn component never reach the screen
    from the URL form, and the second not from the text form either: the
    form's own message that no skills were found in the profile, and that
    of [handleSkillsExtracted] for an empty list.  [parseLinkedInURL]
    throws rather than return an empty list, so what the user reads when
    nothing is found is the message of that error with the advice to use
    the Paste Text tab appended, as for every other error of the call. *)
Theorem url_form_own_messages_unreachable (web : Web) (skills : list Skill.t)
    (onSkillsExtracted : list string → callback) (existingSkills : list string)
    (input : string) :
  let ofForm :=
    "No skills found in the LinkedIn profile. Please use the "
    +:+ pasteTextQuoted +:+ " tab and copy text from your profile." in
  let ofImport :=
    "No skills found in the LinkedIn profile. Please make sure your profile contains technical skills." in
  handleURLSubmit web skills onSkillsExtracted existingSkills input ≠ ShowsError ofForm
  ∧ handleURLSubmit web skills onSkillsExtracted existingSkills input
    ≠ ShowsError ofImport
  ∧ handleTextSubmit skills onSkillsExtracted existingSkills input ≠ ShowsError ofImport
  ∧ (∀ e, parseLinkedInURL web (trim input) skills = Throws e →
          trim input ≠ "" →
          handleURLSubmit web skills onSkillsExtracted existingSkills input
          = ShowsError
              (message e
               +:+ " LinkedIn profiles are often not publicly accessible. Please use the "
               +:+ pasteTextQuoted +:+ " tab for more reliable results.")).
Proof.
  intros ofForm ofImport.
  assert (∀ ids, ids ≠ [] →
            handleSkillsExtracted onSkillsExtracted existingSkills ids
            ≠ ShowsError ofForm
            ∧ handleSkillsExtracted onSkillsExtracted existingSkills ids
              ≠ ShowsError ofImport) as Himport.
  { intros ids
      [-> | [-> | [l ->]]]%(handleSkillsExtracted_nonempty onSkillsExtracted
                              existingSkills);
      split; discriminate. }
  assert (∀ e : exn,
            ShowsError
              (message e
               +:+ " LinkedIn profiles are often not publicly accessible. Please use the "
               +:+ pasteTextQuoted +:+ " tab for more reliable results.")
            ≠ ShowsError ofForm
            ∧ ShowsError
                (message e
                 +:+ " LinkedIn profiles are often not publicly accessible. Please use the "
                 +:+ pasteTextQuoted +:+ " tab for more reliable results.")
              ≠ ShowsError ofImport) as Hthrown.
  { intros e. split; intros [= H]; symmetry in H; revert H; by apply not_a_suffix. }
  assert (handleURLSubmit web skills onSkillsExtracted existingSkills input
          ≠ ShowsError ofForm
          ∧ handleURLSubmit web skills onSkillsExtracted existingSkills input
            ≠ ShowsError ofImport) as Hurl.
  { unfold handleURLSubmit. case_bool_decide as Hblank; [split; discriminate|].
    destruct (parseLinkedInURL web (trim input) skills) as [ids|e|] eqn:Hparse.
    - apply parseLinkedInURL_nonempty in Hparse as [Hne _].
      destruct ids as [|i ids]; [done|].
      cbn [call mbind attempt_bind length Nat.ltb Nat.leb tryShow].
      by apply Himport.
    - apply Hthrown.
    - split; discriminate. }
  split_and!; [apply Hurl..| |].
  - unfold handleTextSubmit. case_bool_decide as Hblank; [discriminate|].
    unfold LinkedinParser.parseLinkedInText.
    destruct (bool_decide _ || _); [discriminate|].
    destruct (extractSkillsFromText_elem_of
                (trim (collapseWhiteSpace (trim input))) skills) as (ids & -> & _).
    destruct ids as [|i ids]; [discriminate|].
    cbn [call mbind attempt_bind length Nat.ltb Nat.leb tryShow].
    by apply Himport.
  - intros e He Hne. unfold handleURLSubmit. rewrite He.
    by rewrite bool_decide_eq_false_2.
Qed.

End UrlFormFacts.

(** ** The steps of the personal form *)

Section FormSteps.
Import PersonalInfo.

Lemma handle_in_range st e :
  (1 ≤ currentStep st ≤ totalSteps)%Z →
  (1 ≤ currentStep (handle st e) ≤ totalSteps)%Z.
Proof.
  unfold totalSteps. intros Hst. destruct e; simpl; [| |done].
  - unfold handleNext, totalSteps. destruct (canProceed st && _) eqn:H; [|done].
    apply andb_true_iff in H as [_ H%Z.ltb_lt]. simpl. lia.
  - unfold handleBack. destruct (1 <? currentStep st)%Z eqn:H; [|done].
    apply Z.ltb_lt in H. simpl. lia.
Qed.

Lemma handle_dreamRoleId st e :
  dreamRoleId (handle st e)
  = match e with ChooseRole id => Some id | _ => dreamRoleId st end.
Proof.
  destruct e; simpl; [| |done].
  - unfold handleNext. by destruct (_ && _).
  - unfold handleBack. by destruct (_ <? _)%Z.
Qed.

(** X19.  Whatever the user does on the personal form, in any order (the
    Next and Back buttons, the choice of a role), the step stays between 1
    and [totalSteps]; a role, once chosen, is never cleared; and the form
    cannot proceed exactly when it is on step 2 without any role chosen
    so far, so that step 1 is never held back. *)
Theorem form_step_stays_in_range (events : list event) :
  (1 ≤ currentStep (after events) ≤ totalSteps)%Z
  ∧ (dreamRoleId (after events) = None ↔ ∀ id, ChooseRole id ∉ events)
  ∧ (canProceed (after events) = false
     ↔ currentStep (after events) = 2%Z ∧ ∀ id, ChooseRole id ∉ events).
Proof.
  assert ((1 ≤ currentStep (after events) ≤ totalSteps)%Z
          ∧ (dreamRoleId (after events) = None ↔ ∀ id, ChooseRole id ∉ events))
    as [Hrange Hrole].
  { unfold after. induction events as [|e events [IH1 IH2]] using rev_ind.
    - split; [done|]. split; [|done]. intros _ id Hin. by apply elem_of_nil in Hin.
    - rewrite foldl_app. cbn [foldl]. split; [by apply handle_in_range|].
      rewrite handle_dreamRoleId.
      assert (∀ e', (∀ id, ChooseRole id ≠ e') →
                ((∀ id, ChooseRole id ∉ events)
                 ↔ ∀ id, ChooseRole id ∉ events ++ [e'])) as Hother.
      { intros e' He'. apply forall_proper. intros id. rewrite elem_of_app.
        rewrite list_elem_of_singleton.
        split; [intros H [H'|H']; [done|by apply (He' id)]|].
        intros H H'. apply H. by left. }
      destruct e as [| |id]; simpl.
      + rewrite IH2. by apply Hother.
      + rewrite IH2. by apply Hother.
      + split; [intros [=]|]. intros H. exfalso. apply (H id).
        apply elem_of_app. right. by apply list_elem_of_singleton. }
  split; [exact Hrange|]. split; [exact Hrole|].
  rewrite <- Hrole. unfold canProceed, totalSteps in *.
  destruct (currentStep (after events) =? 1)%Z eqn:H1.
  { apply Z.eqb_eq in H1. split; [done|]. intros [? _]. lia. }
  destruct (currentStep (after events) =? 2)%Z eqn:H2.
  - apply Z.eqb_eq in H2. rewrite bool_decide_eq_false.
    split; [intros H; split; [done|]|intros [_ ->]; by intros ?].
    destruct (dreamRoleId (after events)); [|done]. by destruct H.
  - apply Z.eqb_neq in H1, H2. lia.
Qed.

End FormSteps.

(** ** Scenarios of the import and of the colours *)

Section ImportScenarios.
Import JsString JsSearch Effects ResumeFiles ResumeParserComponent LinkedInParserComponent LinkedinUrl.

Lemma parseResume_on_extracted_text_witness :
  (detectFileType textFile = txt ∧ extractTextFromTXT textFile = Returns scenarioText)
  ∧ parseResume scenarioLibraries textFile scenarioVocabulary
    = ResumeParser.extractSkillsFromText scenarioText scenarioVocabulary.
Proof.
  assert (detectFileType textFile = txt
          ∧ extractTextFromTXT textFile = Returns scenarioText) as H
    by (split; reflexivity).
  split; [exact H|].
  apply (parseResume_on_extracted_text scenarioLibraries textFile scenarioVocabulary
           scenarioText).
  right. right. exact H.
Defined.

Lemma parseResume_errors_are_detailed_witness :
  let e :=
    Error
      "Old Word format (.doc) is not supported. Please save your resume as a .docx file or export it as PDF." in
  parseResume scenarioLibraries oldWordFile scenarioVocabulary = Throws e
  ∧ 20 < String.length (message e).
Proof.
  intros e. split; [reflexivity|].
  apply (parseResume_errors_are_detailed scenarioLibraries oldWordFile scenarioVocabulary e).
  reflexivity.
Defined.

Lemma pdf_without_text_is_reported_as_protected_witness :
  extractTextFromPDF scenarioLibraries scannedPdf
  = Throws (Error "PDF file is password-protected. Please remove the password and try again.")
  ∧ extractTextFromPDF scenarioLibraries textFile
    = Throws (Error "Invalid PDF file. The file may be corrupted or not a valid PDF.").
Proof.
  split.
  - apply (proj1 (proj2 (pdf_without_text_is_reported_as_protected scenarioLibraries
                           scannedPdf))
             (chars "%PDF-1.4 (pages are images)")
             {| numPages := 1; pageItems := λ _, Resolved [] |});
      try reflexivity.
    + discriminate.
    + vm_compute. lia.
  - apply (proj2 (proj2 (pdf_without_text_is_reported_as_protected scenarioLibraries
                           textFile))
             (chars scenarioText)); try reflexivity.
    discriminate.
Defined.

Lemma docx_needs_zip_signature_witness :
  extractTextFromDOCX scenarioLibraries renamedTextFile
  = Throws
      (Error "Invalid DOCX file. The file may be corrupted or not a valid DOCX document.").
Proof.
  apply (docx_needs_zip_signature scenarioLibraries renamedTextFile (chars scenarioText));
    [reflexivity|reflexivity|].
  apply (bool_decide_unpack _). vm_compute. exact I.
Defined.

Lemma upload_checks_leave_supported_types_witness :
  detectFileType textFile ∈ [pdf; docx; txt]
  ∧ ∀ libraries,
      handleFileSelect libraries scenarioVocabulary failingCallback [] (Some oldWordFile)
      = handleFileSelect scenarioLibraries scenarioVocabulary scenarioCallback []
          (Some oldWordFile).
Proof.
  split.
  - apply (proj1 (upload_checks_leave_supported_types textFile)); reflexivity.
  - intros libraries.
    apply (proj2 (upload_checks_leave_supported_types oldWordFile)).
    left. reflexivity.
Defined.

Lemma import_appends_the_new_skills_witness :
  handleSkillsExtracted scenarioCallback ["java"] ["js"; "java"]
  = Imported ["java"; "js"]
  ∧ handleSkillsExtracted failingCallback ["java"] ["js"; "java"]
    = ShowsError "Failed to update skills. Please try again."
  ∧ ∃ newSkills,
      ["java"; "js"] = ["java"] ++ newSkills
      ∧ newSkills ≠ []
      ∧ newSkills = filter (λ i, i ∉ ["java"]) ["js"; "java"]
      ∧ (∀ i, i ∈ ["java"; "js"] ↔ i ∈ ["java"] ∨ i ∈ ["js"; "java"])
      ∧ (NoDup ["java"] → NoDup ["js"; "java"] → NoDup ["java"; "js"])
      ∧ scenarioCallback ["java"; "js"] = CallReturns.
Proof.
  split; [reflexivity|]. split; [reflexivity|].
  apply (import_appends_the_new_skills scenarioCallback ["java"] ["js"; "java"]
           ["java"; "js"]).
  reflexivity.
Defined.

Lemma second_import_is_refused_witness :
  handleSkillsExtracted scenarioCallback ["java"] ["js"; "java"]
  = Imported ["java"; "js"]
  ∧ handleSkillsExtracted failingCallback ["java"; "js"] ["js"; "java"]
    = ShowsError "All skills from your LinkedIn profile are already added.".
Proof.
  split; [reflexivity|].
  apply (second_import_is_refused scenarioCallback failingCallback ["java"]
           ["js"; "java"] ["java"; "js"]).
  reflexivity.
Defined.

Lemma parseLinkedInURL_returns_found_skills_witness :
  let profileUrl := "www.linkedin.com/in/someone" in
  parseLinkedInURL scenarioWeb profileUrl scenarioVocabulary = Returns ["js"; "java"]
  ∧ finalUrlOf profileUrl = "https://www.linkedin.com/in/someone"
  ∧ ∃ html,
      fetchLinkedInProfileWithProxy scenarioWeb (finalUrlOf profileUrl) = Returns html
      ∧ 50 ≤ String.length (trim (extractTextFromHTML scenarioWeb html))
      ∧ ResumeParser.extractSkillsFromText (extractTextFromHTML scenarioWeb html)
          scenarioVocabulary
        = Returns ["js"; "java"].
Proof.
  intros profileUrl. split; [reflexivity|]. split; [reflexivity|].
  apply (parseLinkedInURL_returns_found_skills scenarioWeb profileUrl scenarioVocabulary
           ["js"; "java"]).
  reflexivity.
Defined.

Lemma extraction_ignores_letter_case_witness :
  isAscii "Ten years of JAVA." = true
  ∧ ResumeParser.extractSkillsFromText "ten years of java." scenarioVocabulary
    = ResumeParser.extractSkillsFromText "Ten years of JAVA." scenarioVocabulary.
Proof.
  split; [reflexivity|].
  apply (extraction_ignores_letter_case "Ten years of JAVA." scenarioVocabulary).
  reflexivity.
Defined.

Lemma abbreviations_never_decide_witness :
  let smith :=
    {| ThemeContext.name := "Smith College"; ThemeContext.primary := "#002855";
       ThemeContext.secondary := "#F2A900" |} in
  let mit :=
    {| ThemeContext.name := "Massachusetts Institute of Technology (MIT)";
       ThemeContext.primary := "#A31F34"; ThemeContext.secondary := "#8A8B8C" |} in
  ∃ found,
    ThemeContext.findUniversityColors [smith; mit] "Smith College" = Some found
    ∧ ThemeContext.name found = "Smith College".
Proof.
  intros smith mit.
  apply (proj2 (proj2 (abbreviations_never_decide [smith; mit] "Smith College")));
    [discriminate|].
  exists smith. split; [left|reflexivity].
Defined.

Lemma darkenColor_lowers_each_channel_witness :
  ThemeContext.execHexColor "#6366F1" = Some ("63", "66", "F1")
  ∧ ThemeContext.darkenColor "#6366F1" 26 = "#494cd7"
  ∧ String.length (ThemeContext.darkenColor "#6366F1" 26) = 7
  ∧ (∃ r' g' b',
       ThemeContext.execHexColor (ThemeContext.darkenColor "#6366F1" 26)
       = Some (r', g', b')
       ∧ Z.of_N (ThemeContext.parseInt16 r')
         = Z.max 0 (Z.of_N (ThemeContext.parseInt16 "63") - 26)
       ∧ Z.of_N (ThemeContext.parseInt16 g')
         = Z.max 0 (Z.of_N (ThemeContext.parseInt16 "66") - 26)
       ∧ Z.of_N (ThemeContext.parseInt16 b')
         = Z.max 0 (Z.of_N (ThemeContext.parseInt16 "F1") - 26))
  ∧ (∀ delta', (0 ≤ delta')%Z →
       ThemeContext.darkenColor (ThemeContext.darkenColor "#6366F1" 26) delta'
       = ThemeContext.darkenColor "#6366F1" (26 + delta')).
Proof.
  split; [reflexivity|]. split; [reflexivity|].
  apply (darkenColor_lowers_each_channel "#6366F1" 26 "63" "66" "F1"); [reflexivity|lia].
Defined.

Lemma extension_decides_the_file_type_witness :
  detectFileType (fileOf "Resume.PDF" "text/plain" scenarioText) = pdf
  ∧ detectFileType (fileOf "letter.docx" "application/pdf" scenarioText) = docx.
Proof.
  split.
  - apply (proj1 (extension_decides_the_file_type
                    (fileOf "Resume.PDF" "text/plain" scenarioText) "resume")).
    reflexivity.
  - apply (proj1 (proj2 (extension_decides_the_file_type
                    (fileOf "letter.docx" "application/pdf" scenarioText) "letter"))).
    reflexivity.
Defined.

Lemma upload_import_extends_existing_skills_witness :
  handleFileSelect scenarioLibraries scenarioVocabulary scenarioCallback ["java"]
    (Some textFile)
  = Imported ["java"; "js"]
  ∧ handleFileSelect scenarioLibraries scenarioVocabulary failingCallback ["java"]
      (Some textFile)
    = ShowsError "The skill list is read-only."
  ∧ ∃ extractedSkills,
      parseResume scenarioLibraries textFile scenarioVocabulary = Returns extractedSkills
      ∧ ["java"; "js"] = ["java"] ++ filter (λ i, i ∉ ["java"]) extractedSkills
      ∧ (∃ i, i ∈ extractedSkills ∧ i ∉ ["java"])
      ∧ (NoDup ["java"] → NoDup ["java"; "js"])
      ∧ scenarioCallback ["java"; "js"] = CallReturns.
Proof.
  split; [reflexivity|]. split; [reflexivity|].
  apply (upload_import_extends_existing_skills scenarioLibraries scenarioVocabulary
           scenarioCallback ["java"] textFile ["java"; "js"]).
  reflexivity.
Defined.

End ImportScenarios.
